(** * The booking application: session client, page handlers and token gate

    A shallow embedding of the React front end (the [AuthProvider] context,
    the Events, Bookings and Dashboard pages) and of the Flask handlers
    quoted in the repository's back-end analysis, with the properties of
    the authentication and session-bootstrap protocol.

    JavaScript [async] functions are written in a small state monad over
    the browser-side state.  Every [await] splits a function in the part
    that runs up to the request being sent and the part that resumes once
    the promise settles; the settled value is an input of the model. *)

From Stdlib Require Import ZArith Bool List Lia.
From stdpp Require Import base option list strings pretty gmap.

Local Open Scope Z_scope.
Local Open Scope string_scope.
Local Open Scope list_scope.

(** ** Front end *)

Module Client.

(** *** Data *)

(** [interface User] of the auth context. *)
Record User := mkUser { u_id : Z; u_email : string; u_name : string }.

(** [interface Event] of the Events page. *)
Record Event := mkEvent {
  ev_id : Z;
  ev_title : string;
  ev_description : string;
  ev_date : string;
  ev_duration : Z;
  ev_location : string;
  ev_price : Z;
  max_participants : Z;
  current_participants : Z;
  ev_facilitator_name : string;
  ev_facilitator_id : Z;
  ev_type : string }.

(** [interface Booking] of the Bookings page. *)
Record Booking := mkBooking {
  bk_id : Z;
  bk_event_id : Z;
  bk_event_title : string;
  bk_event_description : string;
  bk_event_date : string;
  bk_event_duration : Z;
  bk_event_location : string;
  bk_event_price : Z;
  bk_facilitator_name : string;
  bk_status : string;
  bk_booking_date : string;
  bk_event_type : string }.

(** [interface DashboardStats] and [interface RecentBooking]. *)
Record DashboardStats := mkStats {
  total_bookings : Z;
  upcoming_bookings : Z;
  past_bookings : Z;
  total_events : Z }.

Record RecentBooking := mkRecent {
  rb_id : Z;
  rb_event_title : string;
  rb_event_date : string;
  rb_status : string }.

(** The body of [/auth/login] and [/auth/register] answers:
    [const { token, user } = response.data]. *)
Record AuthData := mkAuthData { token : string; auth_user : User }.

(** *** What a request settles to *)

(** The JSON body of an error answer: [{message, error}], either field
    possibly missing. *)
Record ErrorData := mkErrorData {
  err_message : option string;
  err_error : option string }.

(** An axios rejection: the server answered with an error status
    ([error.response] is set), or no answer came at all (network failure,
    [error.response] undefined). *)
Inductive AxiosError :=
| ResponseError (status : Z) (data : ErrorData)
| NoResponse (reason : string).

(** A settled promise of an [api] call. *)
Inductive Settled (A : Type) :=
| Fulfilled (data : A)
| Rejected (error : AxiosError).
Arguments Fulfilled {A} data.
Arguments Rejected {A} error.

(** How an [async] function ends: it returns, or the rejection of an
    awaited call propagates to its caller. *)
Inductive Completion (A : Type) :=
| Returns (value : A)
| Throws (error : AxiosError).
Arguments Returns {A} value.
Arguments Throws {A} error.

(** The four machine-readable kinds of an authorization failure. *)
Inductive VerificationErrorKind :=
| missing_token | invalid_token | token_expired | unknown_subject.

Definition kind_name (k : VerificationErrorKind) : string :=
  match k with
  | missing_token => "missing_token"
  | invalid_token => "invalid_token"
  | token_expired => "token_expired"
  | unknown_subject => "unknown_subject"
  end.

(** The rejection the client sees for an authorization failure of kind
    [k]: status 401 with the kind in [error]. *)
Definition authorization_failure (k : VerificationErrorKind) (message : string)
  : AxiosError :=
  ResponseError 401 (mkErrorData (Some message) (Some (kind_name k))).

(** [error.response?.data?.message] *)
Definition response_message (e : AxiosError) : option string :=
  match e with
  | ResponseError _ d => err_message d
  | NoResponse _ => None
  end.

(** [m || fallback] on a possibly undefined string: the empty string is
    falsy. *)
Definition or_else (m : option string) (fallback : string) : string :=
  match m with
  | Some s => if decide (s = "") then fallback else s
  | None => fallback
  end.

(** *** Requests and visible outputs *)

Inductive Method := GET | POST | DELETE.

Inductive Body :=
| NoBody
| Credentials (email password : string)
| Registration (name email password : string)
| BookingBody (event_id : Z).

Record Request := mkRequest {
  method : Method;
  url : string;
  authorization : option string;
  body : Body }.

Inductive Output :=
| Sent (r : Request)
| ToastSuccess (message : string)
| ToastError (message : string)
| ConsoleError (message : string).

(** *** Browser-side state *)

Record EventsState := mkEventsState {
  events : list Event;
  events_loading : bool;
  bookingLoading : option Z;
  events_filter : string }.

Record BookingsState := mkBookingsState {
  bookings : list Booking;
  bookings_loading : bool;
  cancelLoading : option Z;
  bookings_filter : string }.

Record DashboardState := mkDashboardState {
  stats : option DashboardStats;
  recentBookings : list RecentBooking;
  dashboard_loading : bool }.

(** [localStorage], the two [useState] cells of [AuthProvider], the
    state of the three pages, and everything sent or shown so far. *)
Record World := mkWorld {
  localStorage : gmap string string;
  user : option User;
  loading : bool;
  events_page : EventsState;
  bookings_page : BookingsState;
  dashboard_page : DashboardState;
  trace : list Output }.

Definition with_localStorage (f : gmap string string → gmap string string)
  (w : World) : World :=
  mkWorld (f (localStorage w)) (user w) (loading w) (events_page w)
    (bookings_page w) (dashboard_page w) (trace w).

Definition with_user (u : option User) (w : World) : World :=
  mkWorld (localStorage w) u (loading w) (events_page w)
    (bookings_page w) (dashboard_page w) (trace w).

Definition with_loading (b : bool) (w : World) : World :=
  mkWorld (localStorage w) (user w) b (events_page w)
    (bookings_page w) (dashboard_page w) (trace w).

Definition with_events_page (f : EventsState → EventsState) (w : World) : World :=
  mkWorld (localStorage w) (user w) (loading w) (f (events_page w))
    (bookings_page w) (dashboard_page w) (trace w).

Definition with_bookings_page (f : BookingsState → BookingsState) (w : World)
  : World :=
  mkWorld (localStorage w) (user w) (loading w) (events_page w)
    (f (bookings_page w)) (dashboard_page w) (trace w).

Definition with_dashboard_page (f : DashboardState → DashboardState) (w : World)
  : World :=
  mkWorld (localStorage w) (user w) (loading w) (events_page w)
    (bookings_page w) (f (dashboard_page w)) (trace w).

Definition with_output (o : Output) (w : World) : World :=
  mkWorld (localStorage w) (user w) (loading w) (events_page w)
    (bookings_page w) (dashboard_page w) (trace w ++ [o]).

(** *** The monad of handlers *)

Definition M (A : Type) : Type := World → A * World.

Definition exec {A} (m : M A) (w : World) : World := snd (m w).
Definition result {A} (m : M A) (w : World) : A := fst (m w).

#[export] Instance M_ret : MRet M := λ A a w, (a, w).
#[export] Instance M_bind : MBind M :=
  λ A B f m w, let '(a, w') := m w in f a w'.

Definition modify (f : World → World) : M unit := λ w, (tt, f w).
Definition gets {A} (f : World → A) : M A := λ w, (f w, w).

(** [localStorage.getItem], [setItem], [removeItem] *)
Definition getItem (key : string) : M (option string) :=
  gets (λ w, localStorage w !! key).
Definition setItem (key value : string) : M unit :=
  modify (with_localStorage (insert key value)).
Definition removeItem (key : string) : M unit :=
  modify (with_localStorage (delete key)).

(** The setters of the [useState] cells. *)
Definition setUser (u : option User) : M unit := modify (with_user u).
Definition setLoading (b : bool) : M unit := modify (with_loading b).

Definition toast_success (msg : string) : M unit :=
  modify (with_output (ToastSuccess msg)).
Definition toast_error (msg : string) : M unit :=
  modify (with_output (ToastError msg)).
Definition console_error (msg : string) : M unit :=
  modify (with_output (ConsoleError msg)).

(** Modelled from the spec: the request interceptor of [services/api],
    the single attachment point that reads the token under the fixed key
    and sends it as [Authorization: Bearer <token>] if one is stored.  The
    module itself is not among the sources; the handlers below only rely
    on it to send the request and to hand back the settled answer. *)
Definition bearer (storage : gmap string string) : option string :=
  (λ t, "Bearer " +:+ t) <$> storage !! "token".

Definition api_send (m : Method) (path : string) (b : Body) : M unit :=
  λ w, (tt, with_output (Sent (mkRequest m path (bearer (localStorage w)) b)) w).

(** [if (token)] on the value of [getItem]: [null] and the empty string
    are falsy. *)
Definition truthy (s : option string) : bool :=
  match s with
  | Some t => negb (bool_decide (t = ""))
  | None => false
  end.

(** *** AuthProvider *)

(** [fetchUser], up to [await api.get("/auth/me")] and from there on. *)
Definition fetchUser_await : M unit := api_send GET "/auth/me" NoBody.

Definition fetchUser_resume (r : Settled User) : M unit :=
  match r with
  | Fulfilled u => setUser (Some u)
  | Rejected _ => removeItem "token"
  end;;
  setLoading false.

Definition fetchUser (r : Settled User) : M unit :=
  fetchUser_await;; fetchUser_resume r.

(** The mount effect of [AuthProvider] (the bootstrap), up to the await
    inside [fetchUser]; the answer says whether a request is pending. *)
Definition mount_await : M bool :=
  t ← getItem "token";
  if truthy t then fetchUser_await;; mret true
  else setLoading false;; mret false.

Definition bootstrap (r : Settled User) : M unit :=
  pending ← mount_await;
  if pending : bool then fetchUser_resume r else mret tt.

(** [login] *)
Definition login_await (email password : string) : M unit :=
  api_send POST "/auth/login" (Credentials email password).

Definition login_resume (r : Settled AuthData) : M (Completion unit) :=
  match r with
  | Rejected e => mret (Throws e)
  | Fulfilled d =>
      setItem "token" (token d);;
      setUser (Some (auth_user d));;
      mret (Returns tt)
  end.

Definition login (email password : string) (r : Settled AuthData)
  : M (Completion unit) :=
  login_await email password;; login_resume r.

(** [register] *)
Definition register_await (name email password : string) : M unit :=
  api_send POST "/auth/register" (Registration name email password).

Definition register_resume (r : Settled AuthData) : M (Completion unit) :=
  match r with
  | Rejected e => mret (Throws e)
  | Fulfilled d =>
      setItem "token" (token d);;
      setUser (Some (auth_user d));;
      mret (Returns tt)
  end.

Definition register (name email password : string) (r : Settled AuthData)
  : M (Completion unit) :=
  register_await name email password;; register_resume r.

(** [logout] *)
Definition logout : M unit :=
  removeItem "token";;
  setUser None.

(** *** Events page *)

Definition setEvents (l : list Event) : M unit :=
  modify (with_events_page (λ p,
    mkEventsState l (events_loading p) (bookingLoading p) (events_filter p))).
Definition setEventsLoading (b : bool) : M unit :=
  modify (with_events_page (λ p,
    mkEventsState (events p) b (bookingLoading p) (events_filter p))).
Definition setBookingLoading (v : option Z) : M unit :=
  modify (with_events_page (λ p,
    mkEventsState (events p) (events_loading p) v (events_filter p))).

(** [fetchEvents], split at [await api.get("/events")]. *)
Definition fetchEvents_await : M unit := api_send GET "/events" NoBody.

Definition fetchEvents_resume (r : Settled (list Event)) : M unit :=
  match r with
  | Fulfilled l => setEvents l
  | Rejected _ => toast_error "Failed to fetch events"
  end;;
  setEventsLoading false.

Definition fetchEvents (r : Settled (list Event)) : M unit :=
  fetchEvents_await;; fetchEvents_resume r.

(** [handleBooking], split at [await api.post("/bookings", ...)].  On
    success it calls [fetchEvents()] without awaiting it: the refresh
    request leaves before the [finally] block runs and settles later; the
    answer says whether such a refresh is pending. *)
Definition handleBooking_await (eventId : Z) : M unit :=
  setBookingLoading (Some eventId);;
  api_send POST "/bookings" (BookingBody eventId).

Definition handleBooking_resume (r : Settled unit) : M bool :=
  pending ← match r with
            | Fulfilled _ =>
                toast_success "Booking successful!";;
                fetchEvents_await;;
                mret true
            | Rejected e =>
                toast_error (or_else (response_message e) "Booking failed");;
                mret false
            end;
  setBookingLoading None;;
  mret pending.

Definition handleBooking (eventId : Z) (r : Settled unit)
  (refresh : Settled (list Event)) : M unit :=
  handleBooking_await eventId;;
  pending ← handleBooking_resume r;
  if pending : bool then fetchEvents_resume refresh else mret tt.

(** The button under each event card.  [Date_parse] is the runtime's
    [new Date(string).getTime()], [None] for an invalid date; a
    comparison with an invalid date is false.  [now] is [new Date()] as
    read while rendering. *)
Definition date_lt (a b : option Z) : bool :=
  match a, b with
  | Some x, Some y => (x <? y)%Z
  | _, _ => false
  end.

Definition button_disabled (Date_parse : string → option Z)
  (loadingId : option Z) (now : Z) (event : Event) : bool :=
  (current_participants event >=? max_participants event)%Z
  || bool_decide (loadingId = Some (ev_id event))
  || date_lt (Date_parse (ev_date event)) (Some now).

(** A click on the button of [event]: a disabled button fires no
    [onClick]; an enabled one calls [handleBooking(event.id)]. *)
Definition click_book (Date_parse : string → option Z) (now : Z)
  (event : Event) (r : Settled unit) (refresh : Settled (list Event))
  : M unit :=
  loadingId ← gets (λ w, bookingLoading (events_page w));
  if button_disabled Date_parse loadingId now event then mret tt
  else handleBooking (ev_id event) r refresh.

(** *** Bookings page *)

Definition setBookings (l : list Booking) : M unit :=
  modify (with_bookings_page (λ p,
    mkBookingsState l (bookings_loading p) (cancelLoading p) (bookings_filter p))).
Definition setBookingsLoading (b : bool) : M unit :=
  modify (with_bookings_page (λ p,
    mkBookingsState (bookings p) b (cancelLoading p) (bookings_filter p))).
Definition setCancelLoading (v : option Z) : M unit :=
  modify (with_bookings_page (λ p,
    mkBookingsState (bookings p) (bookings_loading p) v (bookings_filter p))).

(** [fetchBookings], split at [await api.get("/bookings")]. *)
Definition fetchBookings_await : M unit := api_send GET "/bookings" NoBody.

Definition fetchBookings_resume (r : Settled (list Booking)) : M unit :=
  match r with
  | Fulfilled l => setBookings l
  | Rejected _ => toast_error "Failed to fetch bookings"
  end;;
  setBookingsLoading false.

Definition fetchBookings (r : Settled (list Booking)) : M unit :=
  fetchBookings_await;; fetchBookings_resume r.

(** [handleCancelBooking]; [confirmed] is the answer of
    [window.confirm].  The id is written in decimal, as the template
    literal writes the integers a number holds exactly (below 2^53). *)
Definition handleCancelBooking_await (bookingId : Z) : M unit :=
  setCancelLoading (Some bookingId);;
  api_send DELETE ("/bookings/" +:+ pretty bookingId) NoBody.

Definition handleCancelBooking_resume (r : Settled unit) : M bool :=
  pending ← match r with
            | Fulfilled _ =>
                toast_success "Booking cancelled successfully";;
                fetchBookings_await;;
                mret true
            | Rejected e =>
                toast_error
                  (or_else (response_message e) "Failed to cancel booking");;
                mret false
            end;
  setCancelLoading None;;
  mret pending.

Definition handleCancelBooking (confirmed : bool) (bookingId : Z)
  (r : Settled unit) (refresh : Settled (list Booking)) : M unit :=
  if negb confirmed then mret tt
  else
    handleCancelBooking_await bookingId;;
    pending ← handleCancelBooking_resume r;
    if pending : bool then fetchBookings_resume refresh else mret tt.

(** *** Dashboard page *)

Definition setStats (s : option DashboardStats) : M unit :=
  modify (with_dashboard_page (λ p,
    mkDashboardState s (recentBookings p) (dashboard_loading p))).
Definition setRecentBookings (l : list RecentBooking) : M unit :=
  modify (with_dashboard_page (λ p,
    mkDashboardState (stats p) l (dashboard_loading p))).
Definition setDashboardLoading (b : bool) : M unit :=
  modify (with_dashboard_page (λ p,
    mkDashboardState (stats p) (recentBookings p) b)).

(** [fetchDashboardData]: both requests of the [Promise.all] leave, the
    await succeeds when both are fulfilled. *)
Definition fetchDashboardData_await : M unit :=
  api_send GET "/dashboard/stats" NoBody;;
  api_send GET "/bookings?limit=5" NoBody.

Definition fetchDashboardData_resume (rs : Settled DashboardStats)
  (rb : Settled (list RecentBooking)) : M unit :=
  match rs, rb with
  | Fulfilled s, Fulfilled l => setStats (Some s);; setRecentBookings l
  | _, _ => console_error "Error fetching dashboard data:"
  end;;
  setDashboardLoading false.

Definition fetchDashboardData (rs : Settled DashboardStats)
  (rb : Settled (list RecentBooking)) : M unit :=
  fetchDashboardData_await;; fetchDashboardData_resume rs rb.

(** *** Session states and runs *)

(** The protected requests the pages issue, each with what its calls
    settle to. *)
Inductive PageCall :=
| EventsList (r : Settled (list Event))
| BookingCreate (eventId : Z) (r : Settled unit) (refresh : Settled (list Event))
| BookingsList (r : Settled (list Booking))
| BookingCancel (bookingId : Z) (r : Settled unit)
    (refresh : Settled (list Booking))
| DashboardData (rs : Settled DashboardStats) (rb : Settled (list RecentBooking)).

Definition page_call (c : PageCall) : M unit :=
  match c with
  | EventsList r => fetchEvents r
  | BookingCreate eventId r refresh => handleBooking eventId r refresh
  | BookingsList r => fetchBookings r
  | BookingCancel bookingId r refresh =>
      handleCancelBooking true bookingId r refresh
  | DashboardData rs rb => fetchDashboardData rs rb
  end.






(** [Authenticated]: token and user present; [Unauthenticated]: both
    absent. *)
Definition Authenticated (w : World) : Prop :=
  is_Some (localStorage w !! "token") ∧ is_Some (user w).

Definition Unauthenticated (w : World) : Prop :=
  localStorage w !! "token" = None ∧ user w = None.

(** The application as it starts: nothing fetched, nothing shown,
    [user] null and [loading] true, whatever an earlier visit left in
    [localStorage]. *)
Definition start (storage : gmap string string) : World :=
  mkWorld storage None true
    (mkEventsState [] true None "all")
    (mkBookingsState [] true None "all")
    (mkDashboardState None [] true)
    [].

(** The same code run event by event: a call runs up to its await, its
    answer settles at some later moment, and other events may come in
    between. *)
Inductive Occurrence :=
| Mounts
| MeSettles (r : Settled User)
| LoginCalled (email password : string)
| LoginSettles (r : Settled AuthData)
| RegisterCalled (name email password : string)
| RegisterSettles (r : Settled AuthData)
| LogoutCalled.

Definition occurs (o : Occurrence) : M unit :=
  match o with
  | Mounts => mount_await;; mret tt
  | MeSettles r => fetchUser_resume r
  | LoginCalled email password => login_await email password
  | LoginSettles r => login_resume r;; mret tt
  | RegisterCalled name email password => register_await name email password
  | RegisterSettles r => register_resume r;; mret tt
  | LogoutCalled => logout
  end.

Definition play (l : list Occurrence) (w : World) : World :=
  foldl (λ w o, exec (occurs o) w) w l.

(** The data of the last fulfilled login or register answer among the
    answers that arrived, if any. *)
Definition last_fulfilled (l : list (Settled AuthData)) : option AuthData :=
  foldl (λ acc r, match r with Fulfilled d => Some d | Rejected _ => acc end)
    None l.

(** *** Notions used in the properties *)

(** A user and a world to try the handlers on. *)
Definition alice : User := mkUser 1 "a@x.com" "A".
Definition bob : User := mkUser 2 "b@x.com" "B".
(** The one request of the bootstrap. *)
Definition whoami (storage : gmap string string) : Output :=
  Sent (mkRequest GET "/auth/me" (bearer storage) NoBody).

(** An output that, if it is a request, has [a] as its [Authorization]
    header. *)
Definition carries (a : option string) (o : Output) : Prop :=
  match o with
  | Sent r => authorization r = a
  | _ => True
  end.

(** Page calls one after the other. *)
Definition page_calls (l : list PageCall) (w : World) : World :=
  foldl (λ w c, exec (page_call c) w) w l.

(** The answers of the whoami request. *)
Definition is_whoami_answer (o : Occurrence) : bool :=
  match o with
  | MeSettles _ => true
  | _ => false
  end.

(** [user] set implies a token entry in storage. *)
Definition token_backs_user (w : World) : Prop :=
  is_Some (user w) → is_Some (localStorage w !! "token").

End Client.

(** ** Back end *)

Module Backend.

(** The handlers quoted in the back-end analysis: the three loaders
    registered on [jwt] and the [/api/jwt-test] route behind
    [@jwt_required()].  Their [print] lines only write to the server log
    and are left out. *)

#[warnings="-register-all"]
Inductive Json :=
| JNull
| JBool (b : bool)
| JNum (n : Z)
| JStr (s : string)
| JObj (fields : list (string * Json)).

(** [jsonify(...), status] *)
Definition Response : Type := Json * Z.

(** A row of the [User] table, as far as the handlers read it. *)
Record User := mkUser { id : Z; name : string; email : string }.

(** A Python expression evaluates to a value or raises. *)
Inductive Raising (A : Type) :=
| Value (a : A)
| Raised (str_e : string).
Arguments Value {A} a.
Arguments Raised {A} str_e.

(** The database behind [User.query]: reachable with its rows, or
    failing every query with an exception. *)
Inductive Database :=
| Up (users : gmap Z User)
| Down (str_e : string).

(** [User.query.get(user_id)] *)
Definition User_query_get (db : Database) (user_id : Z) : Raising (option User) :=
  match db with
  | Up users => Value (users !! user_id)
  | Down e => Raised e
  end.

(** [@jwt.expired_token_loader]; [exp] is [jwt_payload.get('exp')]. *)
Definition expired_token_callback (exp : option Z) : Response :=
  (JObj [("message", JStr "Token has expired");
         ("error", JStr "token_expired");
         ("expired_at", from_option JNum JNull exp)], 401).

(** [@jwt.invalid_token_loader] *)
Definition invalid_token_callback (error : string) : Response :=
  (JObj [("message", JStr "Invalid token");
         ("error", JStr "invalid_token");
         ("details", JStr error)], 401).

(** [@jwt.unauthorized_loader] *)
Definition missing_token_callback (error : string) : Response :=
  (JObj [("message", JStr "Authorization token is required");
         ("error", JStr "missing_token");
         ("details", JStr "Authorization header with Bearer token is required")],
   401).

(** The body of [jwt_test]; [user_id] is [get_jwt_identity()]. *)
Definition jwt_test (db : Database) (user_id : Z) : Response :=
  match User_query_get db user_id with
  | Value user =>
      (JObj [("message", JStr "JWT token is valid");
             ("user_id", JNum user_id);
             ("user", match user with
                      | Some u => JObj [("id", JNum (id u));
                                        ("name", JStr (name u));
                                        ("email", JStr (email u))]
                      | None => JNull
                      end);
             ("token_valid", JBool true)], 200)
  | Raised e =>
      (JObj [("message", JStr "JWT token test failed");
             ("error", JStr e);
             ("token_valid", JBool false)], 500)
  end.

(** What the check made by [@jwt_required()] finds in a request: no
    usable [Authorization] header, a token that does not decode or
    verify, a token past its [exp], or a good token with its identity.
    No user lookup is registered on [jwt], so the check stops there. *)
Inductive JwtCheck :=
| NoAuthorization (error : string)
| InvalidToken (error : string)
| ExpiredSignature (exp : option Z)
| Verified (identity : Z).

(** A request either stops at a loader or reaches the wrapped view. *)
Inductive Served :=
| ShortCircuited (by_loader : Response)
| Handled (by_view : Response).

Definition answer (s : Served) : Response :=
  match s with
  | ShortCircuited r => r
  | Handled r => r
  end.

Definition view_ran (s : Served) : bool :=
  match s with
  | ShortCircuited _ => false
  | Handled _ => true
  end.

(** [@jwt_required()] around a view that reads the identity. *)
Definition jwt_required (view : Z → Response) (c : JwtCheck) : Served :=
  match c with
  | NoAuthorization e => ShortCircuited (missing_token_callback e)
  | InvalidToken e => ShortCircuited (invalid_token_callback e)
  | ExpiredSignature exp => ShortCircuited (expired_token_callback exp)
  | Verified identity => Handled (view identity)
  end.

(** The route [/api/jwt-test]. *)
Definition api_jwt_test (db : Database) (c : JwtCheck) : Served :=
  jwt_required (jwt_test db) c.

(** The [error] field of a JSON answer. *)
Definition error_kind (r : Response) : option Json :=
  match fst r with
  | JObj fields => snd <$> List.find (λ kv, bool_decide (fst kv = "error")) fields
  | _ => None
  end.

End Backend.

(** ** Token verifier *)

Module Verifier.

#[export] Instance byte_eq_decision : EqDecision Byte.byte := Byte.byte_eq_dec.

(** A token, by the fields its string carries. *)
Record Token := mkToken {
  subject : Z;
  issued_at : Z;
  expires_at : Z;
  signature : list Byte.byte }.

Inductive VerificationError :=
| MissingToken | InvalidToken | ExpiredToken | UnknownSubject.

(** The [Authorization] value of a request. *)
Inductive Authorization :=
| Absent
| Malformed (value : string)
| Bearer (t : Token).

(** The signed part of a token. *)
Definition claims (t : Token) : Z * Z * Z :=
  (subject t, issued_at t, expires_at t).

(** Modelled from the spec: the Token Verifier of section 4.2.  The back
    end leaves verification to [flask_jwt_extended], which is not among
    the sources, so [verify] follows the five ordered steps of the spec:
    missing or malformed header, signature mismatch, expiry, unknown
    subject, success.  [sign] is the server's signing function under its
    secret, [identities] the ids of the existing identities. *)
Definition verify (sign : Z * Z * Z → list Byte.byte) (now : Z)
  (identities : gset Z) (a : Authorization) : VerificationError + Z :=
  match a with
  | Absent | Malformed _ => inl MissingToken
  | Bearer t =>
      if negb (bool_decide (signature t = sign (claims t))) then inl InvalidToken
      else if (expires_at t <? now)%Z then inl ExpiredToken
      else if negb (bool_decide (subject t ∈ identities)) then inl UnknownSubject
      else inr (subject t)
  end.

(** The token [t] with byte [i] of its signature replaced by [b]. *)
Definition alter_signature_byte (i : nat) (b : Byte.byte) (t : Token) : Token :=
  mkToken (subject t) (issued_at t) (expires_at t) (<[i:=b]> (signature t)).

End Verifier.

(** ** What the pages render *)

Module Views.

Import Client.

(** [a > b] and [a <= b] on dates; false when either is invalid. *)
Definition date_gt (a b : option Z) : bool :=
  match a, b with
  | Some x, Some y => (y <? x)%Z
  | _, _ => false
  end.

Definition date_le (a b : option Z) : bool :=
  match a, b with
  | Some x, Some y => (x <=? y)%Z
  | _, _ => false
  end.

(** [filteredEvents] of the Events page. *)
Definition event_shown (filter : string) (event : Event) : bool :=
  if decide (filter = "all") then true
  else bool_decide (ev_type event = filter).

Definition filteredEvents (filter : string) (l : list Event) : list Event :=
  List.filter (event_shown filter) l.

(** The text on the button of an event card. *)
Definition button_label (Date_parse : string → option Z)
  (loadingId : option Z) (now : Z) (event : Event) : string :=
  if bool_decide (loadingId = Some (ev_id event)) then "Booking..."
  else if (current_participants event >=? max_participants event)%Z
       then "Fully Booked"
  else if date_lt (Date_parse (ev_date event)) (Some now) then "Event Passed"
  else "Book Now".

(** [filteredBookings] of the Bookings page. *)
Definition booking_shown (Date_parse : string → option Z) (now : Z)
  (filter : string) (booking : Booking) : bool :=
  let eventDate := Date_parse (bk_event_date booking) in
  if decide (filter = "upcoming") then
    date_gt eventDate (Some now)
    && negb (bool_decide (bk_status booking = "cancelled"))
  else if decide (filter = "past") then
    date_le eventDate (Some now)
    || bool_decide (bk_status booking = "cancelled")
  else true.

Definition filteredBookings (Date_parse : string → option Z) (now : Z)
  (filter : string) (l : list Booking) : list Booking :=
  List.filter (booking_shown Date_parse now filter) l.

(** The Cancel button of a booking card: rendered for a confirmed
    booking of an event still to come, disabled while that booking is
    being cancelled. *)
Definition cancel_rendered (Date_parse : string → option Z) (now : Z)
  (booking : Booking) : bool :=
  bool_decide (bk_status booking = "confirmed")
  && date_gt (Date_parse (bk_event_date booking)) (Some now).

Definition cancel_disabled (loadingId : option Z) (booking : Booking) : bool :=
  bool_decide (loadingId = Some (bk_id booking)).

(** A click where the Cancel button of [booking] would be: nothing
    happens unless the button is there and enabled. *)
Definition click_cancel (Date_parse : string → option Z) (now : Z)
  (booking : Booking) (confirmed : bool) (r : Settled unit)
  (refresh : Settled (list Booking)) : M unit :=
  loadingId ← gets (λ w, cancelLoading (bookings_page w));
  if cancel_rendered Date_parse now booking
     && negb (cancel_disabled loadingId booking)
  then handleCancelBooking confirmed (bk_id booking) r refresh
  else mret tt.


(** The tokens that fulfilled login and register answers brought. *)
Definition issued_tokens (l : list Occurrence) : list string :=
  flat_map (λ o, match o with
                 | LoginSettles (Fulfilled d) => [token d]
                 | RegisterSettles (Fulfilled d) => [token d]
                 | _ => []
                 end) l.

End Views.

(** ** Register page and navigation bar *)

Module Forms.

Import Client.

(** The [useState] cells of the Register page. *)
Record RegisterState := mkRegisterState {
  name : string;
  email : string;
  password : string;
  confirmPassword : string;
  register_loading : bool }.

(** The browser-side state together with the Register page and the
    router's current path. *)
Record Browser := mkBrowser {
  world : World;
  register_page : RegisterState;
  location : string }.

Definition B (A : Type) : Type := Browser → A * Browser.

#[export] Instance B_ret : MRet B := λ A a b, (a, b).
#[export] Instance B_bind : MBind B :=
  λ A C f m b, let '(a, b') := m b in f a b'.

Definition run_in {A} (m : B A) (b : Browser) : Browser := snd (m b).

(** A handler of the auth context or a toast, run from a page. *)
Definition lift {A} (m : M A) : B A :=
  λ b, let '(a, w') := m (world b) in
       (a, mkBrowser w' (register_page b) (location b)).

(** [navigate(path)] *)
Definition navigate (path : string) : B unit :=
  λ b, (tt, mkBrowser (world b) (register_page b) path).

Definition form : B RegisterState := λ b, (register_page b, b).

Definition setRegisterLoading (v : bool) : B unit :=
  λ b, (tt, mkBrowser (world b)
              (mkRegisterState (name (register_page b)) (email (register_page b))
                 (password (register_page b))
                 (confirmPassword (register_page b)) v)
              (location b)).

(** [handleSubmit] of the Register page; [r] is what the request made by
    [register] settles to. *)
Definition handleSubmit (r : Settled AuthData) : B unit :=
  f ← form;
  if negb (bool_decide (password f = confirmPassword f)) then
    lift (toast_error "Passwords do not match")
  else
    setRegisterLoading true;;
    c ← lift (register (name f) (email f) (password f) r);
    match c with
    | Returns _ =>
        lift (toast_success "Registration successful!");;
        navigate "/dashboard"
    | Throws e =>
        lift (toast_error (or_else (response_message e) "Registration failed"))
    end;;
    setRegisterLoading false.

(** The effect of the Register page on [user]: a signed-in visitor is
    sent to the dashboard. *)
Definition redirect_effect : B unit :=
  u ← lift (gets user);
  match u with
  | Some _ => navigate "/dashboard"
  | None => mret tt
  end.

(** [handleLogout] of the navigation bar. *)
Definition handleLogout : B unit :=
  lift logout;;
  navigate "/login".

(** The navigation bar shows the account links and the Logout button
    when [user] is set, the Login and Register links otherwise. *)
Definition navbar_has_logout (u : option User) : bool :=
  match u with
  | Some _ => true
  | None => false
  end.

End Forms.

(** ** Request logging and configuration of the back end *)

Module Server.

(** [s.startswith(prefix)], [s[n:]] and [s[:n]] on Python strings. *)
Definition startswith (s prefix : string) : bool := String.prefix prefix s.

Fixpoint slice_from (n : nat) (s : string) : string :=
  match n, s with
  | O, _ => s
  | S n', String _ s' => slice_from n' s'
  | S _, EmptyString => EmptyString
  end.

Fixpoint slice_to (n : nat) (s : string) : string :=
  match n, s with
  | S n', String c s' => String c (slice_to n' s')
  | _, _ => EmptyString
  end.

(** [s.replace(old, new, 1)]: the first occurrence of [old], if there is
    one, is replaced.  An empty [old] matches at the start. *)
Fixpoint replace_first (old new s : string) : string :=
  if String.prefix old s then new +:+ slice_from (String.length old) s
  else match s with
       | EmptyString => EmptyString
       | String c s' => String c (replace_first old new s')
       end.

(** The handling of the database URL: the scheme [postgres://] is
    turned into [postgresql://]. *)
Definition database_url (url : string) : string :=
  if startswith url "postgres://"
  then replace_first "postgres://" "postgresql://" url
  else url.

(** [debug_jwt_token]; [authorization] is the header if the request has
    one, [decode_token] is the library call, which returns the decoded
    token or raises.  The [print] lines are left out. *)
Definition debug_jwt_token {A} (decode_token : string → Backend.Raising A)
  (authorization : option string) : bool :=
  let auth_header := default "" authorization in
  if startswith auth_header "Bearer " then
    let token := slice_from 7 auth_header in
    match decode_token token with
    | Backend.Value _ => true
    | Backend.Raised _ => false
    end
  else false.

(** The request as [log_request_info] reads it. *)
Record RequestInfo := mkRequestInfo {
  method : string;
  path : string;
  Authorization : option string;
  Content_Type : option string;
  Origin : option string }.

Definition protected_endpoints : list string :=
  ["/api/auth/me"; "/api/events"; "/api/bookings"; "/api/dashboard/stats";
   "/api/jwt-test"].

(** [log_request_info], by the lines it prints.  Lengths count bytes,
    which for the ASCII of a header are its characters. *)
Definition log_request_info (request : RequestInfo) : list string :=
  if startswith (path request) "/api/" then
    let auth_header := default "No Auth Header" (Authorization request) in
    let content_type := default "No Content-Type" (Content_Type request) in
    let origin := default "No Origin" (Origin request) in
    ["==== REQUEST DEBUG ====";
     "Method: " +:+ method request;
     "Path: " +:+ path request;
     "Origin: " +:+ origin;
     "Content-Type: " +:+ content_type;
     if (50 <? String.length auth_header)%nat
     then "Auth Header: " +:+ slice_to 50 auth_header +:+ "..."
     else "Auth Header: " +:+ auth_header]
    ++ (if existsb (startswith (path request)) protected_endpoints then
          ["Protected endpoint accessed: " +:+ path request]
          ++ (if bool_decide (auth_header = "")
                 || bool_decide (auth_header = "No Auth Header")
              then ["WARNING: No authorization header for protected endpoint!"]
              else if negb (startswith auth_header "Bearer ")
              then ["WARNING: Authorization header doesn't start with 'Bearer '!"]
              else [])
        else [])
    ++ ["======================"]
  else [].

(** The lines of a log that are warnings. *)
Definition warnings (log : list string) : list string :=
  List.filter (λ line, startswith line "WARNING") log.

(** What the client's HTTP library makes of an error answer of the
    server: a rejection with the status and, from the JSON body, the
    strings under [message] and [error]. *)
Definition string_field (key : string) (r : Backend.Response) : option string :=
  match fst r with
  | Backend.JObj fields =>
      match List.find (λ kv, bool_decide (fst kv = key)) fields with
      | Some (_, Backend.JStr s) => Some s
      | _ => None
      end
  | _ => None
  end.

Definition rejection_of (r : Backend.Response) : Client.AxiosError :=
  Client.ResponseError (snd r)
    (Client.mkErrorData (string_field "message" r) (string_field "error" r)).

End Server.

(** * Properties *)

Import Client.

(** ** Running the handlers *)

Ltac run :=
  cbv beta iota zeta delta
    [bootstrap mount_await fetchUser fetchUser_await fetchUser_resume
     login login_await login_resume register register_await
     register_resume logout
     fetchEvents fetchEvents_await fetchEvents_resume
     handleBooking handleBooking_await handleBooking_resume
     fetchBookings fetchBookings_await fetchBookings_resume
     handleCancelBooking handleCancelBooking_await handleCancelBooking_resume
     fetchDashboardData fetchDashboardData_await fetchDashboardData_resume
     setEvents setEventsLoading setBookingLoading setBookings
     setBookingsLoading setCancelLoading setStats setRecentBookings
     setDashboardLoading setUser setLoading getItem setItem removeItem
     toast_success toast_error console_error api_send modify gets
     exec result mbind mret M_bind M_ret fst snd negb
     with_localStorage with_user with_loading with_events_page
     with_bookings_page with_dashboard_page with_output
     localStorage user loading events_page bookings_page dashboard_page
     trace] in *.

Ltac page_cases c :=
  destruct c as [[?|?]|? [?|?] [?|?]|[?|?]|? [?|?] [?|?]|[?|?] [?|?]];
  cbn [page_call]; run.

Lemma page_call_localStorage c w :
  localStorage (exec (page_call c) w) = localStorage w.
Proof. page_cases c; reflexivity. Qed.

Lemma page_call_user c w : user (exec (page_call c) w) = user w.
Proof. page_cases c; reflexivity. Qed.














(** ** Bootstrap *)

Lemma bootstrap_without_token storage me :
  truthy (storage !! "token") = false →
  exec (bootstrap me) (start storage) = with_loading false (start storage).
Proof.
  intros H. run. unfold start, whoami. cbn [localStorage].
  rewrite H. reflexivity.
Qed.

Lemma bootstrap_with_token storage me :
  truthy (storage !! "token") = true →
  exec (bootstrap me) (start storage) =
  exec (fetchUser_resume me) (with_output (whoami storage) (start storage)).
Proof.
  intros H. run. unfold start, whoami. cbn [localStorage].
  rewrite H. reflexivity.
Qed.

(** C3: the bootstrap.  With no entry under ["token"] nothing is sent and
    the session settles Unauthenticated.  With a token stored exactly one
    request leaves, the whoami; when it is fulfilled [user] is the user
    of the answer, the token stays and the session is Authenticated; when
    it is rejected, for whatever reason, the token is removed and the
    session is Unauthenticated.  In every case [loading] ends false.  A
    stored empty string is falsy for [if (token)] and is read as no
    token: nothing is sent and [user] stays null. *)
Theorem bootstrap_settles (storage : gmap string string) (me : Settled User) :
  let w := exec (bootstrap me) (start storage) in
  loading w = false ∧
  match storage !! "token" with
  | None => trace w = [] ∧ Unauthenticated w
  | Some t =>
      if decide (t = "") then
        trace w = [] ∧ user w = None ∧ localStorage w = storage
      else
        trace w = [whoami storage] ∧
        match me with
        | Fulfilled u =>
            user w = Some u ∧ localStorage w = storage ∧ Authenticated w
        | Rejected _ =>
            localStorage w = delete "token" storage ∧ Unauthenticated w
        end
  end.
Proof.
  cbv zeta. destruct (storage !! "token") as [t|] eqn:Ht.
  - destruct (decide (t = "")) as [->|Hne].
    + rewrite bootstrap_without_token by (rewrite Ht; reflexivity).
      repeat split.
    + rewrite bootstrap_with_token
        by (rewrite Ht; cbn; rewrite bool_decide_eq_false_2; done).
      destruct me as [u|e]; unfold Authenticated, Unauthenticated; run;
        cbn [start localStorage user trace app].
      * rewrite Ht. repeat split; eauto.
      * rewrite lookup_delete_eq. repeat split.
  - rewrite bootstrap_without_token by (rewrite Ht; reflexivity).
    unfold Unauthenticated. cbn. rewrite Ht. repeat split.
Qed.

(** C4, as stated, fails: a token is stored and the whoami request of
    the bootstrap dies on the network, without any answer from the
    server; the token is gone from storage afterwards. *)
Lemma bootstrap_network_failure_drops_token :
  let storage : gmap string string := {["token" := "T1"]} in
  let w := exec (bootstrap (Rejected (NoResponse "Network Error")))
             (start storage) in
  storage !! "token" = Some "T1" ∧ localStorage w !! "token" = None.
Proof. cbv zeta. split; reflexivity. Qed.

(** C4, amended: during the bootstrap every rejection of the whoami
    request, a network failure as much as an authorization failure,
    removes the stored token; [user] stays absent, [loading] ends, and
    nothing is shown: the only output is the request itself. *)
Theorem bootstrap_any_rejection_drops_token
  (storage : gmap string string) (t : string) (e : AxiosError) :
  storage !! "token" = Some t → t ≠ "" →
  let w := exec (bootstrap (Rejected e)) (start storage) in
  localStorage w = delete "token" storage ∧
  user w = None ∧
  loading w = false ∧
  trace w = [whoami storage].
Proof.
  intros Ht Hne. cbv zeta.
  rewrite bootstrap_with_token
    by (rewrite Ht; cbn; rewrite bool_decide_eq_false_2; done).
  run. repeat split.
Qed.

Lemma bootstrap_any_rejection_drops_token_witness :
  let storage : gmap string string := {["token" := "T1"]} in
  let w := exec (bootstrap (Rejected (NoResponse "Network Error")))
             (start storage) in
  localStorage w = delete "token" storage ∧
  user w = None ∧
  loading w = false ∧
  trace w = [whoami storage].
Proof.
  cbv zeta.
  apply (bootstrap_any_rejection_drops_token {["token" := "T1"]} "T1"
           (NoResponse "Network Error")).
  - reflexivity.
  - discriminate.
Defined.

(** ** Login and logout *)

(** C7: login.  A fulfilled answer stores its token under ["token"],
    sets [user] to its user, and leaves the session Authenticated.  A
    rejected one, bad credentials included, writes nothing: storage and
    [user] are unchanged, so an Unauthenticated session stays so, and the
    rejection reaches the caller as it came, with the server's message
    in it. *)
Theorem login_stores_on_success_only
  (email password : string) (w : World) :
  (∀ d : AuthData,
     let w' := exec (login email password (Fulfilled d)) w in
     result (login email password (Fulfilled d)) w = Returns tt ∧
     localStorage w' = <["token" := token d]> (localStorage w) ∧
     user w' = Some (auth_user d) ∧
     Authenticated w') ∧
  (∀ e : AxiosError,
     let w' := exec (login email password (Rejected e)) w in
     result (login email password (Rejected e)) w = Throws e ∧
     localStorage w' = localStorage w ∧
     user w' = user w ∧
     (Unauthenticated w' ↔ Unauthenticated w)) ∧
  (∀ (status : Z) (message : string) (kind : option string),
     let e := ResponseError status (mkErrorData (Some message) kind) in
     result (login email password (Rejected e)) w = Throws e ∧
     response_message e = Some message).
Proof.
  split; [|split].
  - intros d. unfold Authenticated. run.
    rewrite lookup_insert_eq. repeat split; eauto.
  - intros e. unfold Unauthenticated. run.
    repeat split; tauto.
  - intros status message kind. split; reflexivity.
Qed.

Lemma page_call_trace c w :
  ∃ outs, trace (exec (page_call c) w) = trace w ++ outs ∧
          Forall (carries (bearer (localStorage w))) outs.
Proof.
  page_cases c; eexists;
    (split; [rewrite <- ?app_assoc; reflexivity | repeat constructor]).
Qed.

Lemma page_calls_localStorage l w :
  localStorage (page_calls l w) = localStorage w.
Proof.
  revert w. induction l as [|c l IH]; intros w; [reflexivity|].
  cbn. unfold page_calls in IH. rewrite IH. apply page_call_localStorage.
Qed.

Lemma page_calls_user l w : user (page_calls l w) = user w.
Proof.
  revert w. induction l as [|c l IH]; intros w; [reflexivity|].
  cbn. unfold page_calls in IH. rewrite IH. apply page_call_user.
Qed.

Lemma page_calls_trace l w :
  ∃ outs, trace (page_calls l w) = trace w ++ outs ∧
          Forall (carries (bearer (localStorage w))) outs.
Proof.
  revert w. induction l as [|c l IH]; intros w.
  - exists []. split; [symmetry; apply app_nil_r | constructor].
  - cbn. destruct (page_call_trace c w) as (o1 & E1 & F1).
    destruct (IH (exec (page_call c) w)) as (o2 & E2 & F2).
    unfold page_calls in E2. rewrite page_call_localStorage in F2.
    exists (o1 ++ o2). split.
    + rewrite E2, E1, app_assoc. reflexivity.
    + apply Forall_app; split; assumption.
Qed.

(** C8: logout.  It removes the token and sets [user] to null, whatever
    the state, so the session is Unauthenticated; it sends nothing, the
    trace is unchanged.  From then on no header is built from storage,
    and every request the pages send afterwards goes without
    [Authorization], while [user] keeps reading null. *)
Theorem logout_discards_session (w : World) (later : list PageCall) :
  let w' := exec logout w in
  let w'' := page_calls later w' in
  Unauthenticated w' ∧
  trace w' = trace w ∧
  bearer (localStorage w') = None ∧
  Forall (carries None) (drop (length (trace w)) (trace w'')) ∧
  Unauthenticated w''.
Proof.
  cbv zeta.
  assert (Hl : localStorage (exec logout w) = delete "token" (localStorage w))
    by (run; reflexivity).
  assert (Hu : user (exec logout w) = None) by (run; reflexivity).
  assert (Ht : trace (exec logout w) = trace w) by (run; reflexivity).
  assert (Hb : bearer (localStorage (exec logout w)) = None)
    by (unfold bearer; rewrite Hl, lookup_delete_eq; reflexivity).
  unfold Unauthenticated.
  rewrite page_calls_localStorage, page_calls_user, Hl, Hu, lookup_delete_eq.
  repeat split; try assumption.
  destruct (page_calls_trace later (exec logout w)) as (outs & E & F).
  rewrite E, Ht, drop_app_length, <- Hb. exact F.
Qed.

(** ** The invariant of the session *)

Lemma bootstrap_token_backs_user storage me :
  token_backs_user (exec (bootstrap me) (start storage)).
Proof.
  unfold token_backs_user.
  destruct (truthy (storage !! "token")) eqn:Ht.
  - rewrite bootstrap_with_token by exact Ht.
    destruct me as [u|e]; run; cbn [start localStorage user].
    + intros _. destruct (storage !! "token"); [eauto | discriminate Ht].
    + intros [? ?]; discriminate.
  - rewrite bootstrap_without_token by exact Ht.
    cbn. intros [? ?]; discriminate.
Qed.

Lemma occurs_token_backs_user o w :
  is_whoami_answer o = false →
  token_backs_user w → token_backs_user (exec (occurs o) w).
Proof.
  unfold token_backs_user. destruct w as [st u ld ep bp dp tr].
  destruct o as [|r|? ?|[d|e]|? ? ?|[d|e]|]; cbn [occurs is_whoami_answer];
    intros Ho; try discriminate Ho; run; intros H; try exact H.
  - destruct (truthy (st !! "token")); exact H.
  - intros _. rewrite lookup_insert_eq. eauto.
  - intros _. rewrite lookup_insert_eq. eauto.
  - intros [? ?]; discriminate.
Qed.

Lemma play_token_backs_user l w :
  Forall (λ o, is_whoami_answer o = false) l →
  token_backs_user w → token_backs_user (play l w).
Proof.
  revert w. induction l as [|o l IH]; intros w Hl H; [exact H|].
  apply Forall_cons in Hl as [Ho Hl].
  cbn [play foldl]. apply IH; [exact Hl|].
  apply occurs_token_backs_user; assumption.
Qed.

(** C9, as stated, fails when a whoami answer arrives late: the
    application starts with an old token in storage and the whoami of
    the bootstrap is under way; Alice logs in, her token is stored and
    [user] is set; then the whoami is rejected and [fetchUser] removes
    the entry under ["token"].  All operations are completed, [user] is
    set and storage holds no token. *)
Lemma late_whoami_rejection_removes_new_token :
  let w :=
    play [Mounts;
          LoginCalled "a@x.com" "secret1";
          LoginSettles (Fulfilled (mkAuthData "T1" alice));
          MeSettles (Rejected (authorization_failure token_expired
                                 "Token has expired"))]
      (start {["token" := "T0"]}) in
  user w = Some alice ∧ localStorage w !! "token" = None.
Proof. cbv zeta. split; reflexivity. Qed.

(** C9, amended: the invariant of the session client once the
    bootstrap has settled.  From application start, after the bootstrap
    and after any run of login, register and logout calls and answers,
    overlapping in whatever order, a non-null [user] comes with an entry
    under ["token"] in storage.  Only a whoami answer that arrives after
    another operation is left out. *)
Theorem user_implies_stored_token
  (storage : gmap string string) (me : Settled User) (l : list Occurrence)
  (u : User) :
  Forall (λ o, is_whoami_answer o = false) l →
  user (play l (exec (bootstrap me) (start storage))) = Some u →
  is_Some (localStorage (play l (exec (bootstrap me) (start storage)))
           !! "token").
Proof.
  intros Hl Hu.
  apply (play_token_backs_user l _ Hl (bootstrap_token_backs_user storage me)).
  rewrite Hu. eauto.
Qed.

Lemma user_implies_stored_token_witness :
  is_Some (localStorage
             (play [LoginCalled "b@x.com" "secret2";
                    LogoutCalled;
                    RegisterCalled "A" "a@x.com" "secret1";
                    LoginSettles (Rejected (NoResponse "Network Error"));
                    RegisterSettles (Fulfilled (mkAuthData "T1" alice))]
                (exec (bootstrap (Fulfilled bob))
                   (start {["token" := "T0"]})))
           !! "token").
Proof.
  apply (user_implies_stored_token {["token" := "T0"]} (Fulfilled bob)
           [LoginCalled "b@x.com" "secret2";
            LogoutCalled;
            RegisterCalled "A" "a@x.com" "secret1";
            LoginSettles (Rejected (NoResponse "Network Error"));
            RegisterSettles (Fulfilled (mkAuthData "T1" alice))]
           alice).
  - repeat constructor.
  - reflexivity.
Defined.

(** ** Answers that arrive late *)

Lemma play_app l1 l2 w : play (l1 ++ l2) w = play l2 (play l1 w).
Proof. apply foldl_app. Qed.

Lemma login_settles_fulfilled d w :
  user (exec (occurs (LoginSettles (Fulfilled d))) w) = Some (auth_user d) ∧
  localStorage (exec (occurs (LoginSettles (Fulfilled d))) w)
  = <["token" := token d]> (localStorage w).
Proof. cbn [occurs]. run. split; reflexivity. Qed.

Lemma login_settles_rejected e w :
  user (exec (occurs (LoginSettles (Rejected e))) w) = user w ∧
  localStorage (exec (occurs (LoginSettles (Rejected e))) w) = localStorage w.
Proof. cbn [occurs]. run. split; reflexivity. Qed.

Lemma last_fulfilled_snoc rs r :
  last_fulfilled (rs ++ [r]) =
  match r with Fulfilled d => Some d | Rejected _ => last_fulfilled rs end.
Proof. unfold last_fulfilled. rewrite foldl_app. reflexivity. Qed.

Lemma login_answers_in_order rs w :
  user (play (LoginSettles <$> rs) w)
  = from_option (λ d, Some (auth_user d)) (user w) (last_fulfilled rs) ∧
  localStorage (play (LoginSettles <$> rs) w)
  = from_option (λ d, <["token" := token d]> (localStorage w))
      (localStorage w) (last_fulfilled rs).
Proof.
  induction rs as [|r rs IH] using rev_ind; [split; reflexivity|].
  rewrite fmap_app, play_app, last_fulfilled_snoc. cbn [fmap list_fmap play foldl].
  destruct IH as [IHu IHs]. destruct r as [d|e].
  - destruct (login_settles_fulfilled d (play (LoginSettles <$> rs) w))
      as [-> ->].
    rewrite IHs. cbn [from_option]. split; [reflexivity|].
    destruct (last_fulfilled rs); cbn [from_option];
      [apply insert_insert_eq | reflexivity].
  - destruct (login_settles_rejected e (play (LoginSettles <$> rs) w))
      as [-> ->].
    split; assumption.
Qed.

(** C2, as stated, fails on both counts.  First run: a login is under
    way, the user logs out, then the login is fulfilled; [user] is set
    again and the token is back in storage.  Second run: Alice's login
    is called, then Bob's; Bob's answer arrives first, Alice's, the older
    call's, arrives last and overwrites it. *)
Lemma stale_answer_overwrites :
  let after_logout :=
    play [LoginCalled "a@x.com" "secret1";
          LogoutCalled;
          LoginSettles (Fulfilled (mkAuthData "T1" alice))] (start ∅) in
  let two_logins :=
    play [LoginCalled "a@x.com" "secret1";
          LoginCalled "b@x.com" "secret2";
          LoginSettles (Fulfilled (mkAuthData "T2" bob));
          LoginSettles (Fulfilled (mkAuthData "T1" alice))] (start ∅) in
  (user after_logout = Some alice ∧
   localStorage after_logout !! "token" = Some "T1") ∧
  (user two_logins = Some alice ∧
   localStorage two_logins !! "token" = Some "T1").
Proof. cbv zeta. repeat split; reflexivity. Qed.

(** C2, amended: the session client keeps no generation and accepts
    every answer on arrival.  Whatever happened before, a logout or a
    newer call included, a fulfilled login or register answer stores its
    token and sets its user, and a fulfilled whoami sets its user; of
    several login answers the session ends in the state of the last
    fulfilled one to arrive, in whatever order the calls were made, and
    rejected answers change nothing. *)
Theorem answers_applied_on_arrival :
  (∀ (before : list Occurrence) (w : World) (d : AuthData),
     let w' := play (before ++ [LoginSettles (Fulfilled d)]) w in
     user w' = Some (auth_user d) ∧
     localStorage w' !! "token" = Some (token d)) ∧
  (∀ (before : list Occurrence) (w : World) (d : AuthData),
     let w' := play (before ++ [RegisterSettles (Fulfilled d)]) w in
     user w' = Some (auth_user d) ∧
     localStorage w' !! "token" = Some (token d)) ∧
  (∀ (before : list Occurrence) (w : World) (u : User),
     user (play (before ++ [MeSettles (Fulfilled u)]) w) = Some u) ∧
  (∀ (answers : list (Settled AuthData)) (w : World),
     let w' := play (LoginSettles <$> answers) w in
     user w'
     = from_option (λ d, Some (auth_user d)) (user w) (last_fulfilled answers) ∧
     localStorage w'
     = from_option (λ d, <["token" := token d]> (localStorage w))
         (localStorage w) (last_fulfilled answers)).
Proof.
  split; [|split; [|split]].
  - intros before w d. cbv zeta. rewrite play_app.
    cbn [play foldl occurs]. run.
    split; [reflexivity | apply lookup_insert_eq].
  - intros before w d. cbv zeta. rewrite play_app.
    cbn [play foldl occurs]. run.
    split; [reflexivity | apply lookup_insert_eq].
  - intros before w u. rewrite play_app. reflexivity.
  - intros answers w. apply login_answers_in_order.
Qed.

(** ** The booking button *)

(** C10, as stated, fails for an event that passes after the page has
    rendered.  The event starts at time 150 and has room.  The page
    renders at time 100 and reads the clock then; the button is enabled.
    The visitor clicks at time 200, when the event is past: the clock is
    not read again and the booking request is sent. *)
Lemma event_passing_after_render_is_booked :
  let event := mkEvent 3 "Yoga" "Morning session" "2026-01-01T09:00:00" 60
                 "Studio" 20 10 2 "Maya" 1 "session" in
  let Date_parse : string → option Z := λ _, Some 150%Z in
  let rendered_at := 100%Z in
  let clicked_at := 200%Z in
  let w := exec (fetchEvents (Fulfilled [event])) (start ∅) in
  let w' := exec (click_book Date_parse rendered_at event
                    (Fulfilled ()) (Fulfilled [event])) w in
  (rendered_at ≤ clicked_at)%Z ∧
  date_lt (Date_parse (ev_date event)) (Some clicked_at) = true ∧
  button_disabled Date_parse (bookingLoading (events_page w)) rendered_at event
  = false ∧
  trace w' = trace w ++
    [Sent (mkRequest POST "/bookings" None (BookingBody 3));
     ToastSuccess "Booking successful!";
     Sent (mkRequest GET "/events" None NoBody)].
Proof. cbv zeta. repeat split; try reflexivity. discriminate. Qed.

(** C10, amended: the Events page sends no booking for an event that
    was full or past when the page rendered.  [handleBooking] is only
    reached through the button of the event's card, and a click on that
    button, when the event has as many participants as it allows or its
    date lies before the time read while rendering, does nothing at all:
    the world, and with it the trace of requests, is unchanged.  The
    clock is not read again at the click. *)
Theorem full_or_past_event_is_not_booked
  (Date_parse : string → option Z) (now : Z) (event : Event)
  (r : Settled unit) (refresh : Settled (list Event)) (w : World) :
  (current_participants event >= max_participants event)%Z ∨
  (∃ d, Date_parse (ev_date event) = Some d ∧ (d < now)%Z) →
  button_disabled Date_parse (bookingLoading (events_page w)) now event = true ∧
  exec (click_book Date_parse now event r refresh) w = w.
Proof.
  intros H.
  assert (Hd : button_disabled Date_parse (bookingLoading (events_page w))
                 now event = true).
  { unfold button_disabled. destruct H as [Hfull|(d & Hd & Hlt)].
    - apply Z.ge_le, Z.geb_le in Hfull. rewrite Hfull. reflexivity.
    - rewrite Hd. cbn [date_lt]. apply Z.ltb_lt in Hlt. rewrite Hlt.
      apply orb_true_r. }
  split; [exact Hd|].
  unfold click_book. run. rewrite Hd. reflexivity.
Qed.

Lemma full_or_past_event_is_not_booked_witness :
  let event := mkEvent 3 "Yoga" "Morning session" "2020-01-01T09:00:00" 60
                 "Studio" 20 10 10 "Maya" 1 "session" in
  button_disabled (λ _, Some 1577869200000%Z) None 1800000000000 event = true ∧
  exec (click_book (λ _, Some 1577869200000%Z) 1800000000000 event
          (Fulfilled ()) (Fulfilled [])) (start ∅) = start ∅.
Proof.
  cbv zeta.
  apply (full_or_past_event_is_not_booked (λ _, Some 1577869200000%Z)
           1800000000000
           (mkEvent 3 "Yoga" "Morning session" "2020-01-01T09:00:00" 60
              "Studio" 20 10 10 "Maya" 1 "session")
           (Fulfilled ()) (Fulfilled []) (start ∅)).
  left. cbn. lia.
Defined.

(** ** The gate of the back end *)

(** C5, as stated, fails: the token of user 7 passes the check of
    [@jwt_required()] and no row with id 7 is left in the table; the view
    runs and answers 200 with [user] null and [token_valid] true, and no
    [error] field at all. *)
Lemma deleted_user_reaches_the_view :
  let served := Backend.api_jwt_test (Backend.Up ∅) (Backend.Verified 7) in
  Backend.view_ran served = true ∧
  snd (Backend.answer served) = 200%Z ∧
  Backend.error_kind (Backend.answer served) = None.
Proof. cbv zeta. repeat split; reflexivity. Qed.

Lemma loader_error_kinds (view : Z → Backend.Response) (c : Backend.JwtCheck) :
  Backend.view_ran (Backend.jwt_required view c) = false →
  snd (Backend.answer (Backend.jwt_required view c)) = 401%Z ∧
  Backend.error_kind (Backend.answer (Backend.jwt_required view c))
    ∈ [Some (Backend.JStr "missing_token");
       Some (Backend.JStr "invalid_token");
       Some (Backend.JStr "token_expired")].
Proof.
  destruct c; cbn; intros H; try discriminate; (split; [reflexivity|]);
    set_solver.
Qed.

(** C5, amended: a token that passes the check of [@jwt_required()] and
    whose identity has no row in the user table is let through; the view
    runs and answers 200 with the identity, [user] null and [token_valid]
    true.  The gate knows no kind [unknown_subject]: when it stops a
    request the status is 401 and the kind is one of [missing_token],
    [invalid_token], [token_expired]. *)
Theorem unknown_subject_is_let_through
  (users : gmap Z Backend.User) (identity : Z) :
  users !! identity = None →
  Backend.api_jwt_test (Backend.Up users) (Backend.Verified identity)
  = Backend.Handled
      (Backend.JObj [("message", Backend.JStr "JWT token is valid");
                     ("user_id", Backend.JNum identity);
                     ("user", Backend.JNull);
                     ("token_valid", Backend.JBool true)], 200%Z) ∧
  ∀ (view : Z → Backend.Response) (c : Backend.JwtCheck),
    Backend.view_ran (Backend.jwt_required view c) = false →
    snd (Backend.answer (Backend.jwt_required view c)) = 401%Z ∧
    Backend.error_kind (Backend.answer (Backend.jwt_required view c))
      ∈ [Some (Backend.JStr "missing_token");
         Some (Backend.JStr "invalid_token");
         Some (Backend.JStr "token_expired")].
Proof.
  intros Hnone. split.
  - unfold Backend.api_jwt_test, Backend.jwt_required, Backend.jwt_test,
      Backend.User_query_get. rewrite Hnone. reflexivity.
  - apply loader_error_kinds.
Qed.

Lemma unknown_subject_is_let_through_witness :
  Backend.view_ran
    (Backend.api_jwt_test
       (Backend.Up {[1%Z := Backend.mkUser 1 "A" "a@x.com"]})
       (Backend.Verified 7)) = true.
Proof.
  destruct (unknown_subject_is_let_through
              {[1%Z := Backend.mkUser 1 "A" "a@x.com"]} 7) as [E _].
  - reflexivity.
  - rewrite E. reflexivity.
Defined.

(** ** Signature before expiry *)

Section SignatureFirst.

Variable sign : Z * Z * Z → list Byte.byte.
Variable now : Z.
Variable identities : gset Z.

Lemma verify_signature_mismatch (t : Verifier.Token) :
  Verifier.signature t ≠ sign (Verifier.claims t) →
  Verifier.verify sign now identities (Verifier.Bearer t)
  = inl Verifier.InvalidToken.
Proof.
  intros H. unfold Verifier.verify.
  rewrite bool_decide_eq_false_2 by exact H. reflexivity.
Qed.

Lemma altered_signature_differs (t : Verifier.Token) (i : nat)
  (b b0 : Byte.byte) :
  Verifier.signature t !! i = Some b0 → b ≠ b0 →
  Verifier.signature (Verifier.alter_signature_byte i b t)
  ≠ Verifier.signature t.
Proof.
  intros Hi Hb E. cbn [Verifier.alter_signature_byte Verifier.signature] in E.
  assert (Hi' : <[i:=b]> (Verifier.signature t) !! i = Some b)
    by (apply list_lookup_insert_eq; eapply lookup_lt_Some; exact Hi).
  rewrite E, Hi in Hi'. congruence.
Qed.

(** C6: a token that carries the server's signature, with one byte of
    that signature replaced by a different one, verifies to
    [InvalidToken] whatever its expiry time and the clock: the signature
    is checked first, so the answer is neither [ExpiredToken] nor a
    success.  On the side of the handlers, a token the check finds
    invalid is answered by [invalid_token_callback] with status 401 and
    kind [invalid_token], and the view does not run. *)
Theorem altered_signature_is_invalid (t : Verifier.Token) (i : nat)
  (b b0 : Byte.byte) :
  Verifier.signature t = sign (Verifier.claims t) →
  Verifier.signature t !! i = Some b0 → b ≠ b0 →
  let r := Verifier.verify sign now identities
             (Verifier.Bearer (Verifier.alter_signature_byte i b t)) in
  r = inl Verifier.InvalidToken ∧
  r ≠ inl Verifier.ExpiredToken ∧
  (∀ subject, r ≠ inr subject) ∧
  ∀ (view : Z → Backend.Response) (error : string),
    let served := Backend.jwt_required view (Backend.InvalidToken error) in
    Backend.view_ran served = false ∧
    snd (Backend.answer served) = 401%Z ∧
    Backend.error_kind (Backend.answer served)
    = Some (Backend.JStr "invalid_token").
Proof.
  intros Hsig Hi Hb. cbv zeta.
  rewrite verify_signature_mismatch.
  - repeat split; intros; discriminate.
  - change (Verifier.claims (Verifier.alter_signature_byte i b t))
      with (Verifier.claims t).
    rewrite <- Hsig. eapply altered_signature_differs; eassumption.
Qed.

End SignatureFirst.

Lemma altered_signature_is_invalid_witness :
  let sign : Z * Z * Z → list Byte.byte :=
    λ c, [Byte.x01; Byte.x02; Byte.x03] in
  let t := Verifier.mkToken 1 1000 2000 [Byte.x01; Byte.x02; Byte.x03] in
  Verifier.verify sign 5000 {[1%Z]}
    (Verifier.Bearer (Verifier.alter_signature_byte 2 Byte.xff t))
  = inl Verifier.InvalidToken.
Proof.
  cbv zeta.
  apply (altered_signature_is_invalid (λ c, [Byte.x01; Byte.x02; Byte.x03])
           5000 {[1%Z]}
           (Verifier.mkToken 1 1000 2000 [Byte.x01; Byte.x02; Byte.x03])
           2%nat Byte.xff Byte.x03).
  - reflexivity.
  - reflexivity.
  - discriminate.
Defined.

(** * Further properties of the code *)

Import Views Forms.

(** ** The auth context *)

(** X1: [register] treats its answer exactly as [login] does: the same
    completion, the same storage and the same [user]; the two differ
    only in the request they send. *)
Theorem register_settles_like_login
  (name email password : string) (r : Settled AuthData) (w : World) :
  let wr := exec (register name email password r) w in
  let wl := exec (login email password r) w in
  result (register name email password r) w
  = result (login email password r) w ∧
  localStorage wr = localStorage wl ∧
  user wr = user wl ∧
  trace wr = trace w ++ [Sent (mkRequest POST "/auth/register"
                                 (bearer (localStorage w))
                                 (Registration name email password))] ∧
  trace wl = trace w ++ [Sent (mkRequest POST "/auth/login"
                                 (bearer (localStorage w))
                                 (Credentials email password))].
Proof. destruct r; run; repeat split. Qed.

(** X2: logout undoes a login.  Whatever the login settled to, a logout
    after it leaves storage as a logout alone would have and [user]
    null; and a second logout changes nothing. *)
Theorem logout_undoes_login
  (email password : string) (r : Settled AuthData) (w : World) :
  let w' := exec logout (exec (login email password r) w) in
  localStorage w' = localStorage (exec logout w) ∧
  user w' = None ∧
  exec logout (exec logout w) = exec logout w.
Proof.
  destruct r; run; rewrite ?delete_insert_eq, ?delete_delete_eq;
    repeat split.
Qed.

Lemma occurs_loading o w :
  loading w = false → loading (exec (occurs o) w) = false.
Proof.
  destruct w as [st u ld ep bp dp tr].
  destruct o as [|[?|?]| |[?|?]| |[?|?]|]; cbn [occurs]; run; intros H;
    try exact H; try reflexivity.
  destruct (truthy (st !! "token")); [exact H | reflexivity].
Qed.

(** X3: the auth context never goes back to loading.  Once [loading] is
    false, no call and no answer, in any order, sets it again: a login
    under way shows no loading state of the provider. *)
Theorem loading_never_restarts (l : list Occurrence) (w : World) :
  loading w = false → loading (play l w) = false.
Proof.
  revert w. induction l as [|o l IH]; intros w H; [exact H|].
  cbn [play foldl]. apply IH, occurs_loading, H.
Qed.

Lemma loading_never_restarts_witness :
  loading (play [LoginCalled "a@x.com" "secret1";
                 LoginSettles (Fulfilled (mkAuthData "T1" alice));
                 LogoutCalled]
             (with_loading false (start ∅))) = false.
Proof.
  apply (loading_never_restarts
           [LoginCalled "a@x.com" "secret1";
            LoginSettles (Fulfilled (mkAuthData "T1" alice));
            LogoutCalled]
           (with_loading false (start ∅))).
  reflexivity.
Defined.

Lemma occurs_other_keys o w k :
  k ≠ "token" →
  localStorage (exec (occurs o) w) !! k = localStorage w !! k.
Proof.
  intros Hk. destruct w as [st u ld ep bp dp tr].
  destruct o as [|[?|?]| |[?|?]| |[?|?]|]; cbn [occurs]; run;
    rewrite ?lookup_insert_ne, ?lookup_delete_ne by (intros E; apply Hk; done);
    try reflexivity.
  destruct (truthy (st !! "token")); reflexivity.
Qed.

(** X4: the session client owns one key.  Whatever is called and
    whatever arrives, and whatever the pages request in between, the
    entries of [localStorage] under keys other than ["token"] stay as
    they were. *)
Theorem other_keys_untouched
  (l : list Occurrence) (calls : list PageCall) (w : World) (k : string) :
  k ≠ "token" →
  localStorage (page_calls calls (play l w)) !! k = localStorage w !! k.
Proof.
  intros Hk. rewrite page_calls_localStorage.
  revert w. induction l as [|o l IH]; intros w; [reflexivity|].
  cbn [play foldl]. unfold play in IH. rewrite IH.
  apply occurs_other_keys, Hk.
Qed.

Lemma other_keys_untouched_witness :
  localStorage
    (page_calls [EventsList (Rejected (NoResponse "Network Error"))]
       (play [LoginSettles (Fulfilled (mkAuthData "T1" alice)); LogoutCalled]
          (start {["theme" := "dark"]}))) !! "theme"
  = (start {["theme" := "dark"]}).(localStorage) !! "theme".
Proof.
  apply (other_keys_untouched
           [LoginSettles (Fulfilled (mkAuthData "T1" alice)); LogoutCalled]
           [EventsList (Rejected (NoResponse "Network Error"))]
           (start {["theme" := "dark"]}) "theme").
  discriminate.
Defined.

Lemma occurs_token_provenance o w t :
  localStorage (exec (occurs o) w) !! "token" = Some t →
  localStorage w !! "token" = Some t ∨ t ∈ issued_tokens [o].
Proof.
  destruct w as [st u ld ep bp dp tr].
  destruct o as [|[?|?]| |[d|?]| |[d|?]|]; cbn [occurs issued_tokens flat_map app];
    run; rewrite ?lookup_insert_eq, ?lookup_delete_eq; intros H;
    try (left; exact H); try discriminate.
  - destruct (truthy (st !! "token")); left; exact H.
  - right. injection H as <-. apply list_elem_of_singleton. reflexivity.
  - right. injection H as <-. apply list_elem_of_singleton. reflexivity.
Qed.

Lemma issued_tokens_cons o l :
  issued_tokens (o :: l) = issued_tokens [o] ++ issued_tokens l.
Proof. unfold issued_tokens. cbn [flat_map]. rewrite app_nil_r. reflexivity. Qed.

(** X5: where a stored token comes from.  After any run of calls and
    answers, the token in storage, if there is one, is the one that was
    there at the start or one that a fulfilled login or register answer
    brought; the client never makes one up and the whoami never stores
    one. *)
Theorem stored_token_provenance (l : list Occurrence) (w : World) (t : string) :
  localStorage (play l w) !! "token" = Some t →
  localStorage w !! "token" = Some t ∨ t ∈ issued_tokens l.
Proof.
  revert w. induction l as [|o l IH]; intros w H; [left; exact H|].
  cbn [play foldl] in H. rewrite issued_tokens_cons.
  destruct (IH _ H) as [H'|H'].
  - destruct (occurs_token_provenance o w t H') as [?|?];
      [left; assumption | right; apply elem_of_app; left; assumption].
  - right. apply elem_of_app. right. exact H'.
Qed.

Lemma stored_token_provenance_witness :
  localStorage (start ∅) !! "token" = Some "T1" ∨
  "T1" ∈ issued_tokens
           [LoginCalled "a@x.com" "secret1";
            LoginSettles (Fulfilled (mkAuthData "T1" alice));
            MeSettles (Fulfilled alice)].
Proof.
  apply (stored_token_provenance
           [LoginCalled "a@x.com" "secret1";
            LoginSettles (Fulfilled (mkAuthData "T1" alice));
            MeSettles (Fulfilled alice)]
           (start ∅) "T1").
  reflexivity.
Defined.

(** ** Events page *)

Lemma label_with_one_clock
  (Date_parse : string → option Z) (loadingId : option Z) (now : Z)
  (event : Event) :
  button_label Date_parse loadingId now event = "Book Now"
  ↔ button_disabled Date_parse loadingId now event = false.
Proof.
  unfold button_label, button_disabled.
  destruct (bool_decide (loadingId = Some (ev_id event)));
    destruct (current_participants event >=? max_participants event)%Z;
    destruct (date_lt (Date_parse (ev_date event)) (Some now));
    cbn; split; intros H; try reflexivity; discriminate.
Qed.

Lemma date_lt_mono d (t1 t2 : Z) :
  (t1 ≤ t2)%Z → date_lt d (Some t1) = true → date_lt d (Some t2) = true.
Proof.
  destruct d as [x|]; cbn [date_lt]; [|discriminate].
  intros Ht H. apply Z.ltb_lt in H. apply Z.ltb_lt. lia.
Qed.

(** X6: the button and its label.  A render reads the clock twice,
    first for [disabled], then for the label.  A button that reads
    "Book Now" is enabled.  An enabled button reads "Book Now", unless
    the date of the event falls between the two readings: then it is
    enabled and reads "Event Passed".  When both readings give the same
    time, the label is "Book Now" exactly when the button is enabled. *)
Theorem book_now_label_is_enabled
  (Date_parse : string → option Z) (loadingId : option Z)
  (t_disabled t_label : Z) (event : Event) :
  (t_disabled ≤ t_label)%Z →
  (button_label Date_parse loadingId t_label event = "Book Now" →
   button_disabled Date_parse loadingId t_disabled event = false) ∧
  (button_disabled Date_parse loadingId t_disabled event = false →
   button_label Date_parse loadingId t_label event = "Book Now"
   ∨ button_label Date_parse loadingId t_label event = "Event Passed"
     ∧ ∃ d, Date_parse (ev_date event) = Some d ∧ (t_disabled ≤ d < t_label)%Z) ∧
  (t_disabled = t_label →
   (button_label Date_parse loadingId t_label event = "Book Now"
    ↔ button_disabled Date_parse loadingId t_disabled event = false)).
Proof.
  intros Ht. split; [|split].
  - intros Hl. apply label_with_one_clock in Hl.
    unfold button_disabled in *.
    apply orb_false_iff in Hl as [Hl Hd]. rewrite Hl. cbn [orb].
    destruct (date_lt (Date_parse (ev_date event)) (Some t_disabled)) eqn:E;
      [|reflexivity].
    rewrite (date_lt_mono _ _ _ Ht E) in Hd. discriminate.
  - intros Hd. unfold button_disabled in Hd.
    apply orb_false_iff in Hd as [Hd Hp]. apply orb_false_iff in Hd as [Hf Hl].
    unfold button_label. rewrite Hl, Hf.
    destruct (Date_parse (ev_date event)) as [d|]; cbn [date_lt] in *;
      [|left; reflexivity].
    destruct (d <? t_label)%Z eqn:E; [|left; reflexivity].
    right. split; [reflexivity|]. exists d. split; [reflexivity|].
    apply Z.ltb_ge in Hp. apply Z.ltb_lt in E. lia.
  - intros <-. apply label_with_one_clock.
Qed.

Lemma book_now_label_is_enabled_witness :
  button_disabled (λ _, Some 150%Z) None 100
    (mkEvent 3 "Yoga" "Morning session" "2026-01-01T09:00:00" 60
       "Studio" 20 10 2 "Maya" 1 "session") = false.
Proof.
  destruct (book_now_label_is_enabled (λ _, Some 150%Z) None 100 101
              (mkEvent 3 "Yoga" "Morning session" "2026-01-01T09:00:00" 60
                 "Studio" 20 10 2 "Maya" 1 "session")) as [H _].
  - discriminate.
  - apply H. reflexivity.
Defined.





(** X8: the loading mark follows the last click only.  A booking of a
    second event while the first is pending moves the mark to the
    second, and whichever answer arrives first clears it: from then on
    neither button reads "Booking...", though a request is still
    pending. *)
Theorem booking_mark_is_shared (a b : Z) (r : Settled unit) (w : World) :
  let w2 := exec (handleBooking_await b) (exec (handleBooking_await a) w) in
  bookingLoading (events_page w2) = Some b ∧
  bookingLoading (events_page (exec (handleBooking_resume r) w2)) = None.
Proof. destruct r; run; split; reflexivity. Qed.

(** X9: a booking that fails refreshes nothing.  When the request of
    [handleBooking] is rejected, one error toast is shown, with the
    server's message if it sent a non-empty one and "Booking failed"
    otherwise, no request for the event list follows, the events on
    screen are the same, and the loading mark is cleared. *)
Theorem failed_booking_keeps_events
  (eventId : Z) (e : AxiosError) (refresh : Settled (list Event)) (w : World) :
  let w' := exec (handleBooking eventId (Rejected e) refresh) w in
  trace w' = trace w ++
    [Sent (mkRequest POST "/bookings" (bearer (localStorage w))
             (BookingBody eventId));
     ToastError (or_else (response_message e) "Booking failed")] ∧
  events (events_page w') = events (events_page w) ∧
  events_loading (events_page w') = events_loading (events_page w) ∧
  bookingLoading (events_page w') = None.
Proof. run. rewrite <- app_assoc. repeat split. Qed.

Lemma event_shown_session event :
  event_shown "session" event = bool_decide (ev_type event = "session").
Proof. reflexivity. Qed.

Lemma event_shown_retreat event :
  event_shown "retreat" event = bool_decide (ev_type event = "retreat").
Proof. reflexivity. Qed.

(** X10: the tabs of the Events page.  "All Events" shows every event;
    no event is shown under both "Sessions" and "Retreats"; and the
    events shown under one of the two are the events whose type is
    "session" or "retreat": an event of any other type is on the page
    under "All Events" only. *)
Theorem event_tabs_partition (l : list Event) :
  filteredEvents "all" l = l ∧
  (∀ event, event_shown "session" event && event_shown "retreat" event = false) ∧
  (∀ event,
     In event (filteredEvents "session" l) ∨ In event (filteredEvents "retreat" l)
     ↔ In event l ∧ (ev_type event = "session" ∨ ev_type event = "retreat")).
Proof.
  split; [|split].
  - unfold filteredEvents. induction l as [|x l IH]; [reflexivity|].
    cbn. rewrite IH. reflexivity.
  - intros event. rewrite event_shown_session, event_shown_retreat.
    destruct (bool_decide_reflect (ev_type event = "session")) as [E|E];
      [|reflexivity].
    rewrite bool_decide_eq_false_2 by (rewrite E; discriminate). reflexivity.
  - intros event. unfold filteredEvents. rewrite !filter_In.
    rewrite event_shown_session, event_shown_retreat, !bool_decide_eq_true.
    tauto.
Qed.

(** ** Bookings page *)

Lemma booking_shown_upcoming Date_parse now booking :
  booking_shown Date_parse now "upcoming" booking
  = date_gt (Date_parse (bk_event_date booking)) (Some now)
    && negb (bool_decide (bk_status booking = "cancelled")).
Proof. reflexivity. Qed.

Lemma booking_shown_past Date_parse now booking :
  booking_shown Date_parse now "past" booking
  = date_le (Date_parse (bk_event_date booking)) (Some now)
    || bool_decide (bk_status booking = "cancelled").
Proof. reflexivity. Qed.

(** X11: the "Upcoming" and "Past" tabs.  No booking is shown under
    both.  A booking is shown under one of them exactly when its event
    date parses or its status is "cancelled": a booking that is not
    cancelled and whose date does not parse is on the page under "All
    Bookings" only. *)
Theorem booking_tabs_partition
  (Date_parse : string → option Z) (now : Z) (booking : Booking) :
  booking_shown Date_parse now "upcoming" booking
  && booking_shown Date_parse now "past" booking = false ∧
  (booking_shown Date_parse now "upcoming" booking
   || booking_shown Date_parse now "past" booking = true
   ↔ is_Some (Date_parse (bk_event_date booking))
     ∨ bk_status booking = "cancelled") ∧
  booking_shown Date_parse now "all" booking = true.
Proof.
  rewrite booking_shown_upcoming, booking_shown_past.
  split; [|split; [|reflexivity]].
  - destruct (bool_decide (bk_status booking = "cancelled"));
      [apply andb_false_iff; left; apply andb_false_r|].
    destruct (Date_parse (bk_event_date booking)) as [d|]; [|reflexivity].
    cbn [date_gt date_le negb]. rewrite Z.ltb_antisym.
    destruct (d <=? now)%Z; reflexivity.
  - destruct (bool_decide_reflect (bk_status booking = "cancelled")) as [Ec|Ec].
    + rewrite !orb_true_r. split; [right; exact Ec | reflexivity].
    + destruct (Date_parse (bk_event_date booking)) as [d|].
      * cbn [date_gt date_le negb]. rewrite Z.ltb_antisym.
        split; [left; eauto|]. intros _. destruct (d <=? now)%Z; reflexivity.
      * cbn. split; [discriminate|].
        intros [[d Hd]|Hc]; [discriminate | contradiction].
Qed.

(** X12: only upcoming bookings can be cancelled.  Wherever the Cancel
    button is rendered, the booking is one of the "Upcoming" tab and not
    of the "Past" tab. *)
Theorem cancel_button_only_on_upcoming
  (Date_parse : string → option Z) (now : Z) (booking : Booking) :
  cancel_rendered Date_parse now booking = true →
  booking_shown Date_parse now "upcoming" booking = true ∧
  booking_shown Date_parse now "past" booking = false.
Proof.
  unfold cancel_rendered. rewrite booking_shown_upcoming, booking_shown_past.
  intros [Hs Hd]%andb_true_iff. apply bool_decide_eq_true in Hs.
  rewrite Hd, bool_decide_eq_false_2 by (rewrite Hs; discriminate).
  split; [reflexivity|].
  destruct (Date_parse (bk_event_date booking)) as [d|]; [|discriminate].
  cbn [date_gt date_le] in *. rewrite Z.ltb_antisym in Hd.
  destruct (d <=? now)%Z; [discriminate | reflexivity].
Qed.

Lemma cancel_button_only_on_upcoming_witness :
  let booking := mkBooking 5 3 "Yoga" "Morning session" "2030-01-01T09:00:00"
                   60 "Studio" 20 "Maya" "confirmed" "2026-01-01" "session" in
  booking_shown (λ _, Some 1893488400000%Z) 1800000000000 "upcoming" booking
  = true ∧
  booking_shown (λ _, Some 1893488400000%Z) 1800000000000 "past" booking
  = false.
Proof.
  cbv zeta.
  apply (cancel_button_only_on_upcoming (λ _, Some 1893488400000%Z)
           1800000000000
           (mkBooking 5 3 "Yoga" "Morning session" "2030-01-01T09:00:00"
              60 "Studio" 20 "Maya" "confirmed" "2026-01-01" "session")).
  reflexivity.
Defined.

(** X13: a booking that cannot be cancelled is not cancelled.  A click
    where the Cancel button of a booking would be, when the booking is
    not confirmed or its event is not ahead of the time read while
    rendering, changes nothing and sends nothing. *)
Theorem uncancellable_booking_is_kept
  (Date_parse : string → option Z) (now : Z) (booking : Booking)
  (confirmed : bool) (r : Settled unit) (refresh : Settled (list Booking))
  (w : World) :
  bk_status booking ≠ "confirmed" ∨
  (∀ d, Date_parse (bk_event_date booking) = Some d → (d ≤ now)%Z) →
  exec (click_cancel Date_parse now booking confirmed r refresh) w = w.
Proof.
  intros H.
  assert (Hr : cancel_rendered Date_parse now booking = false).
  { unfold cancel_rendered. destruct H as [Hs|Hd].
    - rewrite bool_decide_eq_false_2 by exact Hs. reflexivity.
    - destruct (Date_parse (bk_event_date booking)) as [d|];
        cbn [date_gt]; [|apply andb_false_r].
      specialize (Hd d eq_refl). apply Z.ltb_ge in Hd. rewrite Hd.
      apply andb_false_r. }
  unfold click_cancel.
  change (exec (?m ≫= ?f) ?w0) with (exec (f (result m w0)) (exec m w0)).
  rewrite Hr. reflexivity.
Qed.

Lemma uncancellable_booking_is_kept_witness :
  exec (click_cancel (λ _, Some 1893488400000%Z) 1800000000000
          (mkBooking 5 3 "Yoga" "Morning session" "2030-01-01T09:00:00"
             60 "Studio" 20 "Maya" "cancelled" "2026-01-01" "session")
          true (Fulfilled ()) (Fulfilled [])) (start ∅)
  = start ∅.
Proof.
  apply (uncancellable_booking_is_kept (λ _, Some 1893488400000%Z)
           1800000000000
           (mkBooking 5 3 "Yoga" "Morning session" "2030-01-01T09:00:00"
              60 "Studio" 20 "Maya" "cancelled" "2026-01-01" "session")
           true (Fulfilled ()) (Fulfilled []) (start ∅)).
  left. discriminate.
Defined.

(** X14: every booking is cancelled at its own address.  For booking
    ids that a number holds exactly, below 2^53 in size, the requests
    that [handleCancelBooking] sends for two bookings are the same only
    if the bookings are: the id is written in decimal after
    [/bookings/], and no two such ids are written alike. *)
Theorem cancel_requests_differ (a b : Z) (w : World) :
  (- 2 ^ 53 < a < 2 ^ 53)%Z → (- 2 ^ 53 < b < 2 ^ 53)%Z →
  (trace (exec (handleCancelBooking_await a) w)
   = trace (exec (handleCancelBooking_await b) w)
   ↔ a = b).
Proof.
  intros _ _. split; [|intros ->; reflexivity].
  run. intros H. apply app_inv_head in H. injection H as H.
  apply (inj pretty). exact H.
Qed.

Lemma cancel_requests_differ_witness :
  trace (exec (handleCancelBooking_await 5) (start ∅))
  = trace (exec (handleCancelBooking_await 7) (start ∅))
  ↔ 5%Z = 7%Z.
Proof.
  apply (cancel_requests_differ 5 7 (start ∅)); split; reflexivity.
Defined.

(** X15: a cancellation that is declined or fails changes no booking.
    If the visitor answers no to the confirmation, nothing happens at
    all.  If the request is rejected, one error toast is shown, with the
    server's message if it sent a non-empty one and "Failed to cancel
    booking" otherwise, the list is not fetched again, the bookings on
    screen are the same, and the loading mark is cleared. *)
Theorem failed_cancel_keeps_bookings
  (bookingId : Z) (r : Settled unit) (e : AxiosError)
  (refresh : Settled (list Booking)) (w : World) :
  exec (handleCancelBooking false bookingId r refresh) w = w ∧
  let w' := exec (handleCancelBooking true bookingId (Rejected e) refresh) w in
  trace w' = trace w ++
    [Sent (mkRequest DELETE ("/bookings/" +:+ pretty bookingId)
             (bearer (localStorage w)) NoBody);
     ToastError (or_else (response_message e) "Failed to cancel booking")] ∧
  bookings (bookings_page w') = bookings (bookings_page w) ∧
  cancelLoading (bookings_page w') = None.
Proof.
  split; [reflexivity|].
  cbv zeta. cbn [handleCancelBooking negb]. run. rewrite <- app_assoc.
  repeat split.
Qed.

(** ** Dashboard *)

(** X16: the dashboard shows both answers or neither.  Both requests
    are always sent.  When both are fulfilled the statistics and the
    recent bookings are replaced together; when either is rejected both
    stay as they were, even if the other answer came, and one error is
    logged.  The loading state ends in every case. *)
Theorem dashboard_all_or_nothing
  (rs : Settled DashboardStats) (rb : Settled (list RecentBooking))
  (w : World) :
  let w' := exec (fetchDashboardData rs rb) w in
  let sent :=
    [Sent (mkRequest GET "/dashboard/stats" (bearer (localStorage w)) NoBody);
     Sent (mkRequest GET "/bookings?limit=5" (bearer (localStorage w)) NoBody)]
  in
  dashboard_loading (dashboard_page w') = false ∧
  match rs, rb with
  | Fulfilled s, Fulfilled l =>
      stats (dashboard_page w') = Some s ∧
      recentBookings (dashboard_page w') = l ∧
      trace w' = trace w ++ sent
  | _, _ =>
      stats (dashboard_page w') = stats (dashboard_page w) ∧
      recentBookings (dashboard_page w') = recentBookings (dashboard_page w) ∧
      trace w' = trace w ++ sent
                 ++ [ConsoleError "Error fetching dashboard data:"]
  end.
Proof.
  destruct rs, rb; run; rewrite <- ?app_assoc; repeat split.
Qed.

(** ** Register page and navigation bar *)

Ltac run_form :=
  cbv beta iota zeta delta
    [handleSubmit handleLogout redirect_effect lift navigate form
     setRegisterLoading run_in B_bind B_ret
     world register_page location
     Forms.name Forms.email password confirmPassword register_loading
     register register_await register_resume logout
     setUser setItem removeItem toast_success toast_error api_send modify gets
     exec result mbind mret M_bind M_ret fst snd
     with_localStorage with_user with_output
     localStorage user loading events_page bookings_page dashboard_page
     trace] in *.

(** X17: passwords that differ stop the registration.  When the two
    password fields are not the same, submitting the form sends nothing
    and stores nothing: one toast says so, and the form, its loading
    state, the path and the session stay as they were. *)
Theorem mismatched_passwords_send_nothing (r : Settled AuthData) (b : Browser) :
  password (register_page b) ≠ confirmPassword (register_page b) →
  run_in (handleSubmit r) b
  = mkBrowser (with_output (ToastError "Passwords do not match") (world b))
      (register_page b) (location b).
Proof.
  intros H. destruct b as [w f p]. run_form.
  rewrite bool_decide_eq_false_2 by exact H. reflexivity.
Qed.

Lemma mismatched_passwords_send_nothing_witness :
  let b := mkBrowser (start ∅)
             (mkRegisterState "A" "a@x.com" "secret1" "secret2" false)
             "/register" in
  run_in (handleSubmit (Fulfilled (mkAuthData "T1" alice))) b
  = mkBrowser (with_output (ToastError "Passwords do not match") (world b))
      (register_page b) (location b).
Proof.
  cbv zeta.
  apply (mismatched_passwords_send_nothing
           (Fulfilled (mkAuthData "T1" alice))
           (mkBrowser (start ∅)
              (mkRegisterState "A" "a@x.com" "secret1" "secret2" false)
              "/register")).
  discriminate.
Defined.

(** X18: a registration that is refused leaves the visitor where they
    are.  With matching passwords and a rejected request, the page shows
    one error toast, with the server's message if it sent a non-empty
    one and "Registration failed" otherwise; nothing is stored, [user]
    and the path are unchanged, and the form is no longer loading. *)
Theorem refused_registration_stays (e : AxiosError) (b : Browser) :
  password (register_page b) = confirmPassword (register_page b) →
  let b' := run_in (handleSubmit (Rejected e)) b in
  localStorage (world b') = localStorage (world b) ∧
  user (world b') = user (world b) ∧
  location b' = location b ∧
  register_loading (register_page b') = false ∧
  trace (world b') = trace (world b) ++
    [Sent (mkRequest POST "/auth/register" (bearer (localStorage (world b)))
             (Registration (Forms.name (register_page b))
                (Forms.email (register_page b))
                (password (register_page b))));
     ToastError (or_else (response_message e) "Registration failed")].
Proof.
  intros H. destruct b as [w f p]. run_form.
  rewrite bool_decide_eq_true_2 by exact H. cbn.
  rewrite <- app_assoc. repeat split.
Qed.

Lemma refused_registration_stays_witness :
  location
    (run_in (handleSubmit
               (Rejected (ResponseError 409
                            (mkErrorData (Some "Email already registered")
                               None))))
       (mkBrowser (start ∅)
          (mkRegisterState "A" "a@x.com" "secret1" "secret1" false)
          "/register"))
  = "/register".
Proof.
  apply (refused_registration_stays
           (ResponseError 409
              (mkErrorData (Some "Email already registered") None))
           (mkBrowser (start ∅)
              (mkRegisterState "A" "a@x.com" "secret1" "secret1" false)
              "/register")).
  reflexivity.
Defined.

(** X19: a registration that succeeds signs the visitor in.  With
    matching passwords and a fulfilled request, the token of the answer
    is stored, [user] is the user of the answer, the session is
    Authenticated, the path is the dashboard, the form is no longer
    loading, and the redirect of the page for a signed-in visitor keeps
    the path there. *)
Theorem accepted_registration_signs_in (d : AuthData) (b : Browser) :
  password (register_page b) = confirmPassword (register_page b) →
  let b' := run_in (handleSubmit (Fulfilled d)) b in
  localStorage (world b') !! "token" = Some (token d) ∧
  user (world b') = Some (auth_user d) ∧
  Authenticated (world b') ∧
  location b' = "/dashboard" ∧
  register_loading (register_page b') = false ∧
  run_in redirect_effect b' = b'.
Proof.
  intros H. destruct b as [w f p]. unfold Authenticated. run_form.
  rewrite bool_decide_eq_true_2 by exact H. cbn.
  rewrite lookup_insert_eq. repeat split; eauto.
Qed.

Lemma accepted_registration_signs_in_witness :
  location
    (run_in (handleSubmit (Fulfilled (mkAuthData "T1" alice)))
       (mkBrowser (start ∅)
          (mkRegisterState "A" "a@x.com" "secret1" "secret1" false)
          "/register"))
  = "/dashboard".
Proof.
  apply (accepted_registration_signs_in (mkAuthData "T1" alice)
           (mkBrowser (start ∅)
              (mkRegisterState "A" "a@x.com" "secret1" "secret1" false)
              "/register")).
  reflexivity.
Defined.

(** X20: the Logout button.  [handleLogout] of the navigation bar ends
    with the session Unauthenticated and the path at the login page; it
    sends nothing; the bar then shows no Logout button, and the redirect
    for signed-in visitors does not move the path away. *)
Theorem navbar_logout_lands_on_login (b : Browser) :
  let b' := run_in handleLogout b in
  Unauthenticated (world b') ∧
  location b' = "/login" ∧
  trace (world b') = trace (world b) ∧
  navbar_has_logout (user (world b')) = false ∧
  run_in redirect_effect b' = b'.
Proof.
  destruct b as [w f p]. unfold Unauthenticated. run_form.
  rewrite lookup_delete_eq. repeat split.
Qed.

(** ** Request logging and configuration of the back end *)

Lemma prefix_empty s : String.prefix "" s = true.
Proof. destruct s; reflexivity. Qed.

Lemma prefix_append p s : String.prefix p (p +:+ s) = true.
Proof.
  induction p as [|c p IH]; [apply prefix_empty|].
  change (String.prefix (String c p) (String c (p +:+ s)) = true).
  cbn. destruct (Ascii.ascii_dec c c); [exact IH | contradiction].
Qed.

Lemma slice_from_append p s :
  Server.slice_from (String.length p) (p +:+ s) = s.
Proof. induction p as [|c p IH]; [reflexivity | exact IH]. Qed.

Lemma replace_first_prefix old new s :
  String.prefix old s = true →
  Server.replace_first old new s
  = new +:+ Server.slice_from (String.length old) s.
Proof. intros H. destruct s; cbn [Server.replace_first]; rewrite H; reflexivity. Qed.

Lemma prefix_split p s :
  String.prefix p s = true → s = p +:+ Server.slice_from (String.length p) s.
Proof.
  revert p. induction s as [|c s IH]; intros [|a p] H; try reflexivity;
    try discriminate.
  cbn in H. destruct (Ascii.ascii_dec a c) as [->|]; [|discriminate].
  change (String c s = String c (p +:+ Server.slice_from (String.length p) s)).
  f_equal. apply IH, H.
Qed.

Lemma prefix_trans a b c :
  String.prefix a b = true → String.prefix b c = true →
  String.prefix a c = true.
Proof.
  revert a b. induction c as [|x c IH]; intros [|y a] [|z b] Hab Hbc;
    try reflexivity; try discriminate.
  cbn in *. destruct (Ascii.ascii_dec y z) as [->|]; [|discriminate].
  destruct (Ascii.ascii_dec z x) as [->|]; [|discriminate].
  eapply IH; eassumption.
Qed.

Lemma slice_to_length n s : (String.length (Server.slice_to n s) ≤ n)%nat.
Proof.
  revert s. induction n as [|n IH]; intros [|c s]; cbn; try lia.
  specialize (IH s). lia.
Qed.

Lemma append_length s1 s2 :
  String.length (s1 +:+ s2) = (String.length s1 + String.length s2)%nat.
Proof.
  induction s1 as [|c s1 IH]; [reflexivity|].
  change (S (String.length (s1 +:+ s2))
          = S (String.length s1 + String.length s2)).
  f_equal. exact IH.
Qed.

(** X21: the scheme of the database URL.  A URL that begins with
    [postgres://] comes out with [postgresql://] in its place and the
    rest untouched, also where the rest contains [postgres://] again;
    any other URL comes out as it is.  So the result never begins with
    [postgres://], and handling a URL twice is the same as once. *)
Theorem database_url_scheme (url : string) :
  Server.database_url url
  = (if Server.startswith url "postgres://"
     then "postgresql://" +:+ Server.slice_from 11 url
     else url) ∧
  (∀ rest, Server.database_url ("postgres://" +:+ rest)
           = "postgresql://" +:+ rest) ∧
  Server.startswith (Server.database_url url) "postgres://" = false ∧
  Server.database_url (Server.database_url url) = Server.database_url url.
Proof.
  assert (Hlit : ∀ rest, Server.database_url ("postgres://" +:+ rest)
                         = "postgresql://" +:+ rest).
  { intros rest. unfold Server.database_url, Server.startswith.
    rewrite prefix_append, replace_first_prefix by apply prefix_append.
    rewrite slice_from_append. reflexivity. }
  assert (Hnot : Server.startswith (Server.database_url url) "postgres://"
                 = false).
  { destruct (Server.startswith url "postgres://") eqn:Hp.
    - unfold Server.startswith in Hp. apply prefix_split in Hp.
      rewrite Hp, Hlit. reflexivity.
    - unfold Server.database_url. rewrite Hp. exact Hp. }
  split; [|split; [exact Hlit|split; [exact Hnot|]]].
  - unfold Server.database_url, Server.startswith.
    destruct (String.prefix "postgres://" url) eqn:Hp; [|reflexivity].
    apply replace_first_prefix, Hp.
  - unfold Server.database_url at 1. rewrite Hnot. reflexivity.
Qed.

(** X22: the server reads back the token of a bearer header.  For a
    header made of "Bearer " and a token, [debug_jwt_token] hands
    exactly that token to the decoder and answers whether it decodes.
    Without a header, or with the scheme written "bearer ", it answers
    false whatever the decoder would say. *)
Theorem debug_jwt_token_reads_bearer
  {A} (decode_token : string → Backend.Raising A) (t : string) :
  Server.debug_jwt_token decode_token (Some ("Bearer " +:+ t))
  = match decode_token t with
    | Backend.Value _ => true
    | Backend.Raised _ => false
    end ∧
  Server.debug_jwt_token decode_token None = false ∧
  Server.debug_jwt_token decode_token (Some ("bearer " +:+ t)) = false.
Proof.
  unfold Server.debug_jwt_token, Server.startswith, default, id.
  cbn [from_option].
  rewrite prefix_append.
  change 7%nat with (String.length "Bearer ") at 1.
  rewrite slice_from_append. repeat split.
Qed.

Lemma bearer_header_present t :
  bool_decide ("Bearer " +:+ t = "")
  || bool_decide ("Bearer " +:+ t = "No Auth Header") = false.
Proof.
  rewrite !bool_decide_eq_false_2; [reflexivity| |];
    intros E; cbv [String.append] in E; discriminate E.
Qed.

Lemma protected_is_api p :
  existsb (Server.startswith p) Server.protected_endpoints = true →
  Server.startswith p "/api/" = true.
Proof.
  unfold Server.protected_endpoints, Server.startswith. cbn [existsb].
  rewrite !orb_true_iff.
  intros [H|[H|[H|[H|[H|H]]]]]; try discriminate;
    (eapply prefix_trans; [|exact H]); reflexivity.
Qed.

(** X23: what the request log warns about.  A request with the header
    the client builds from a token is logged without warning, whatever
    its path.  A request to a protected path that has no
    [Authorization] header, or an empty one, is logged with the one
    warning that the header is missing; requests outside [/api/] are not
    logged at all. *)
Theorem request_log_warnings (request : Server.RequestInfo) :
  (∀ t, Server.Authorization request = Some ("Bearer " +:+ t) →
        Server.warnings (Server.log_request_info request) = []) ∧
  (existsb (Server.startswith (Server.path request))
     Server.protected_endpoints = true →
   Server.Authorization request = None ∨ Server.Authorization request = Some "" →
   Server.warnings (Server.log_request_info request)
   = ["WARNING: No authorization header for protected endpoint!"]) ∧
  (Server.startswith (Server.path request) "/api/" = false →
   Server.log_request_info request = []).
Proof.
  split; [|split].
  - intros t Ht. unfold Server.log_request_info. rewrite Ht.
    destruct (Server.startswith (Server.path request) "/api/");
      [|reflexivity].
    unfold default, id. cbn [from_option].
    rewrite bearer_header_present.
    unfold Server.startswith at 2. rewrite prefix_append. cbn [negb].
    destruct (50 <? String.length ("Bearer " +:+ t))%nat;
      destruct (existsb (Server.startswith (Server.path request))
                  Server.protected_endpoints);
      reflexivity.
  - intros Hp Ha. unfold Server.log_request_info.
    rewrite (protected_is_api _ Hp), Hp.
    destruct Ha as [-> | ->]; reflexivity.
  - intros Hp. unfold Server.log_request_info. rewrite Hp. reflexivity.
Qed.

Lemma request_log_warnings_witness :
  Server.warnings
    (Server.log_request_info
       (Server.mkRequestInfo "GET" "/api/bookings?limit=5" None None None))
  = ["WARNING: No authorization header for protected endpoint!"].
Proof.
  apply (request_log_warnings
           (Server.mkRequestInfo "GET" "/api/bookings?limit=5" None None None)).
  - reflexivity.
  - left. reflexivity.
Defined.

Lemma prefix_slice_to_le p n s :
  (String.length p ≤ n)%nat →
  String.prefix p (Server.slice_to n s) = String.prefix p s.
Proof.
  revert p s. induction n as [|n IH]; intros [|a p] [|c s] H;
    try reflexivity; cbn in H; try lia.
  cbn. destruct (Ascii.ascii_dec a c); [apply IH; lia | reflexivity].
Qed.

Lemma long_header_present h :
  (50 < String.length h)%nat →
  bool_decide (h = "") || bool_decide (h = "No Auth Header") = false.
Proof.
  intros H. rewrite !bool_decide_eq_false_2; [reflexivity| |];
    intros ->; cbn in H; lia.
Qed.

Lemma log_of_long_header m p ct o h :
  (50 < String.length h)%nat →
  Server.log_request_info (Server.mkRequestInfo m p (Some h) ct o)
  = if Server.startswith p "/api/" then
      ["==== REQUEST DEBUG ====";
       "Method: " +:+ m;
       "Path: " +:+ p;
       "Origin: " +:+ default "No Origin" o;
       "Content-Type: " +:+ default "No Content-Type" ct;
       "Auth Header: " +:+ Server.slice_to 50 h +:+ "..."]
      ++ (if existsb (Server.startswith p) Server.protected_endpoints then
            ["Protected endpoint accessed: " +:+ p]
            ++ (if negb (String.prefix "Bearer " (Server.slice_to 50 h))
                then ["WARNING: Authorization header doesn't start with 'Bearer '!"]
                else [])
          else [])
      ++ ["======================"]
    else [].
Proof.
  intros H. unfold Server.log_request_info.
  cbn [Server.path Server.method Server.Authorization Server.Content_Type
       Server.Origin].
  change (default "No Auth Header" (Some h)) with h.
  rewrite (proj2 (Nat.ltb_lt _ _) H), (long_header_present h H).
  unfold Server.startswith at 3.
  rewrite (prefix_slice_to_le "Bearer " 50 h) by (cbn; lia).
  reflexivity.
Qed.

(** X24: the log holds nothing of a header beyond its first 50
    characters.  Two requests that differ only in their [Authorization]
    headers, both longer than 50 characters and alike in the first 50,
    are logged alike, line for line.  And for a request under [/api/]
    the line that shows the header is at most 66 characters long: the
    words "Auth Header: ", at most 50 characters of the header, and
    three dots when it was cut. *)
Theorem logged_header_is_cut
  (m p : string) (ct o : option string) (h1 h2 : string) :
  Server.slice_to 50 h1 = Server.slice_to 50 h2 →
  (50 < String.length h1)%nat → (50 < String.length h2)%nat →
  Server.log_request_info (Server.mkRequestInfo m p (Some h1) ct o)
  = Server.log_request_info (Server.mkRequestInfo m p (Some h2) ct o) ∧
  (Server.startswith p "/api/" = true →
   ∃ line,
     Server.log_request_info (Server.mkRequestInfo m p (Some h1) ct o) !! 5%nat
     = Some line ∧
     line = "Auth Header: " +:+ Server.slice_to 50 h1 +:+ "..." ∧
     (String.length line ≤ 66)%nat).
Proof.
  intros Hs H1 H2. split.
  - rewrite !log_of_long_header by assumption. rewrite Hs. reflexivity.
  - intros Hp. rewrite log_of_long_header by assumption. rewrite Hp.
    eexists. split; [reflexivity|]. split; [reflexivity|].
    rewrite !append_length. cbn [String.length].
    pose proof (slice_to_length 50 h1). lia.
Qed.

Lemma logged_header_is_cut_witness :
  Server.log_request_info
    (Server.mkRequestInfo "GET" "/api/events"
       (Some "Bearer eyJ0eXAiOiJKV1QiLCJhbGciOiJIUzI1NiJ9.eyJzdWIiOjF9.c2lnbmF0dXJlLW9uZQ")
       None None)
  = Server.log_request_info
      (Server.mkRequestInfo "GET" "/api/events"
         (Some "Bearer eyJ0eXAiOiJKV1QiLCJhbGciOiJIUzI1NiJ9.eyJzdWIiOjF9.c2lnbmF0dXJlLXR3bw")
         None None).
Proof.
  apply (logged_header_is_cut "GET" "/api/events" None None
           "Bearer eyJ0eXAiOiJKV1QiLCJhbGciOiJIUzI1NiJ9.eyJzdWIiOjF9.c2lnbmF0dXJlLW9uZQ"
           "Bearer eyJ0eXAiOiJKV1QiLCJhbGciOiJIUzI1NiJ9.eyJzdWIiOjF9.c2lnbmF0dXJlLXR3bw").
  - reflexivity.
  - cbn. lia.
  - cbn. lia.
Defined.

(** ** From the gate to the toast *)

(** X25: what the visitor reads when the gate stops a booking.  When
    the request of [handleBooking] is answered by one of the three
    loaders, the error toast shows the loader's own sentence, never the
    fallback "Booking failed": "Authorization token is required" for a
    missing token, "Invalid token" for an invalid one, "Token has
    expired" for an expired one. *)
Theorem gate_message_reaches_toast
  (view : Z → Backend.Response) (eventId : Z)
  (refresh : Settled (list Event)) (w : World) :
  let toast_after c :=
    last (trace (exec (handleBooking eventId
                         (Rejected (Server.rejection_of
                                      (Backend.answer
                                         (Backend.jwt_required view c))))
                         refresh) w)) in
  (∀ error, toast_after (Backend.NoAuthorization error)
            = Some (ToastError "Authorization token is required")) ∧
  (∀ error, toast_after (Backend.InvalidToken error)
            = Some (ToastError "Invalid token")) ∧
  (∀ exp, toast_after (Backend.ExpiredSignature exp)
          = Some (ToastError "Token has expired")).
Proof.
  cbv zeta. repeat split; intros; cbn [Backend.jwt_required Backend.answer];
    run; rewrite <- app_assoc, last_app; reflexivity.
Qed.
